(** * Arduino BLE number sender: connection loop and periodic send scheduler

    A shallow embedding of [arduino.ino].  The sketch keeps six global
    variables, polls the BLE stack from [loop()], and while a central is
    connected runs an inner [while (central.connected())] loop that sends an
    incrementing number once per second.

    The embedding is a state-and-trace monad over the record of globals.
    Everything the sketch reads from the outside (readings of [millis()],
    the result of [writeValue], RSSI readings, whether [BLE.begin()]
    succeeded, how long the central stays connected) is supplied as input;
    everything it does to the outside (characteristic writes, serial lines,
    [BLE.advertise()], [delay]) is recorded in the trace, in program order. *)

From Stdlib Require Import ZArith List Bool Lia.
From Stdlib Require String.
Import String.StringSyntax.
Import ListNotations.
Open Scope Z_scope.
Delimit Scope string_scope with string.

(** ** Machine integers *)

(** [unsigned long] is 32 bits wide on the Arduino cores; its arithmetic is
    modulo 2^32. *)
Definition ULONG_MODULUS : Z := 2 ^ 32.

Definition to_ulong (z : Z) : Z := z mod ULONG_MODULUS.

(** [a - b] on [unsigned long] operands. *)
Definition ulong_sub (a b : Z) : Z := to_ulong (a - b).

(** [int] is modelled as a 32-bit two's complement integer.  The counter
    never leaves [0, 100] (theorem [counter_range_invariant]), so the width
    chosen here is never exercised. *)
Definition to_int (z : Z) : Z := (z + 2 ^ 31) mod 2 ^ 32 - 2 ^ 31.

(** ** Globals (lines 8-14) *)

Record Globals : Type := mkGlobals {
  lastHeartbeat : Z;        (* unsigned long *)
  connectionStartTime : Z;  (* unsigned long *)
  totalConnections : Z;     (* unsigned long *)
  wasConnected : bool;
  currentNumber : Z;        (* int *)
  lastNumberSent : Z        (* unsigned long *)
}.

Definition NUMBER_SEND_INTERVAL : Z := 1000.

Definition initial_globals : Globals :=
  {| lastHeartbeat := 0; connectionStartTime := 0; totalConnections := 0;
     wasConnected := false; currentNumber := 0; lastNumberSent := 0 |}.

Definition set_lastHeartbeat (v : Z) (g : Globals) : Globals :=
  mkGlobals v (connectionStartTime g) (totalConnections g)
            (wasConnected g) (currentNumber g) (lastNumberSent g).

Definition set_connectionStartTime (v : Z) (g : Globals) : Globals :=
  mkGlobals (lastHeartbeat g) v (totalConnections g)
            (wasConnected g) (currentNumber g) (lastNumberSent g).

Definition set_totalConnections (v : Z) (g : Globals) : Globals :=
  mkGlobals (lastHeartbeat g) (connectionStartTime g) v
            (wasConnected g) (currentNumber g) (lastNumberSent g).

Definition set_wasConnected (v : bool) (g : Globals) : Globals :=
  mkGlobals (lastHeartbeat g) (connectionStartTime g) (totalConnections g)
            v (currentNumber g) (lastNumberSent g).

Definition set_currentNumber (v : Z) (g : Globals) : Globals :=
  mkGlobals (lastHeartbeat g) (connectionStartTime g) (totalConnections g)
            (wasConnected g) v (lastNumberSent g).

Definition set_lastNumberSent (v : Z) (g : Globals) : Globals :=
  mkGlobals (lastHeartbeat g) (connectionStartTime g) (totalConnections g)
            (wasConnected g) (currentNumber g) v.

(** ** Observable events *)

(** The serial lines that matter for the control flow, one constructor per
    [Serial.println] site (numbers printed in a line are its arguments). *)
Inductive Line : Type :=
| LnBanner                          (* lines 82-86: start-up banner, system info *)
| LnInitFailed                      (* lines 91-95 *)
| LnHalted                          (* line 98 *)
| LnConfigured                      (* lines 101-113 *)
| LnInitialValue (v : Z)            (* line 118 *)
| LnInitialValueFailed              (* line 120 *)
| LnSetupComplete                   (* lines 129-137 *)
| LnIdleHeartbeat                   (* line 148 *)
| LnNewConnection                   (* line 163 *)
| LnConnectionInfo (secs rssi : Z)  (* lines 46-56 *)
| LnStartTransmission               (* line 165 *)
| LnSent (v secs : Z)               (* lines 180-181 *)
| LnSendFailed (v : Z)              (* line 183 *)
| LnAlive (rssi secs : Z)           (* lines 191-192 *)
| LnConnectionLost (secs : Z)       (* lines 201-205 *)
| LnRestartingAdvertising           (* line 210 *)
| LnAdvertisingRestarted.           (* lines 212-214 *)

Inductive Event : Type :=
| Serial (l : Line)
| BleBegin (ok : bool)              (* BLE.begin() and its result *)
| BleConfigure                      (* lines 105-112 *)
| CharWrite (v : Z) (ok : bool)     (* numberCharacteristic.writeValue(v) and its result *)
| BleAdvertise                      (* BLE.advertise() *)
| DelayMs (ms : Z).                 (* delay(ms) *)

(** ** The state-and-trace monad *)

Definition M (A : Type) : Type := Globals -> A * Globals * list Event.

Definition ret {A} (a : A) : M A := fun g => (a, g, []).

Definition bind {A B} (m : M A) (k : A -> M B) : M B :=
  fun g =>
    let '(a, g1, t1) := m g in
    let '(b, g2, t2) := k a g1 in
    (b, g2, t1 ++ t2).

Definition get : M Globals := fun g => (g, g, []).

Definition modify (f : Globals -> Globals) : M unit := fun g => (tt, f g, []).

Definition emit (e : Event) : M unit := fun g => (tt, g, [e]).

Definition when (b : bool) (m : M unit) : M unit := if b then m else ret tt.

Declare Scope fw_scope.
Delimit Scope fw_scope with fw.
Notation "x <- m ;; k" := (bind m (fun x => k))
  (at level 61, m at next level, right associativity) : fw_scope.
Notation "m ;; k" := (bind m (fun _ => k))
  (at level 61, right associativity) : fw_scope.
Open Scope fw_scope.

(** Projections of a run. *)
Definition value {A} (r : A * Globals * list Event) : A := fst (fst r).
Definition final {A} (r : A * Globals * list Event) : Globals := snd (fst r).
Definition trace {A} (r : A * Globals * list Event) : list Event := snd r.

(** ** Inputs *)

(** One iteration of the inner loop (lines 170-197): the reading of
    [millis()] on line 170, the result [writeValue] gives if it is called,
    and the value [central.rssi()] gives if it is called. *)
Record Tick : Type := mkTick {
  tk_millis : Z;
  tk_write_ok : bool;
  tk_rssi : Z
}.

(** What a central that [BLE.central()] returned does: the readings used by
    [printConnectionInfo], the iterations during which
    [central.connected()] holds, and the readings of [millis()] on lines 204
    and 215 once it no longer holds. *)
Record Central : Type := mkCentral {
  ce_info_millis : Z;
  ce_info_rssi : Z;
  ce_ticks : list Tick;
  ce_lost_millis : Z;
  ce_rearm_millis : Z
}.

(** One call of [loop()]: the reading of [millis()] on line 143 and the
    result of [BLE.central()] on line 154. *)
Record Poll : Type := mkPoll {
  pl_millis : Z;
  pl_central : option Central
}.

(** [setup()]: how many times the wait for the serial port (lines 78-80)
    goes round before the port is up or the five seconds are over, the
    result of [BLE.begin()], of the initial [writeValue], and the reading of
    [millis()] on line 139. *)
Record Boot : Type := mkBoot {
  bt_serial_waits : nat;
  bt_begin_ok : bool;
  bt_write_ok : bool;
  bt_millis : Z
}.

(** ** The send scheduler and the connected loop (lines 169-198) *)

(** Line 173. *)
Definition send_due (currentTime : Z) (g : Globals) : bool :=
  NUMBER_SEND_INTERVAL <=? ulong_sub currentTime (lastNumberSent g).

(** Line 190. *)
Definition alive_due (currentTime : Z) (g : Globals) : bool :=
  30000 <? ulong_sub currentTime (lastHeartbeat g).

(** Lines 173-187. *)
Definition send_number (currentTime : Z) (write_ok : bool) : M unit :=
  g <- get ;;
  when (send_due currentTime g) (
    modify (fun g => set_currentNumber (to_int (currentNumber g + 1)) g) ;;
    g1 <- get ;;
    when (100 <? currentNumber g1) (modify (set_currentNumber 0)) ;;
    g2 <- get ;;
    emit (CharWrite (currentNumber g2) write_ok) ;;
    (if write_ok
     then emit (Serial (LnSent (currentNumber g2)
                 (ulong_sub currentTime (connectionStartTime g2) / 1000)))
     else emit (Serial (LnSendFailed (currentNumber g2)))) ;;
    modify (set_lastNumberSent currentTime)).

(** Lines 189-194. *)
Definition connection_alive (currentTime rssi : Z) : M unit :=
  g <- get ;;
  when (alive_due currentTime g) (
    emit (Serial (LnAlive rssi
           (ulong_sub currentTime (connectionStartTime g) / 1000))) ;;
    modify (set_lastHeartbeat currentTime)).

(** The body of [while (central.connected())], lines 170-197. *)
Definition connected_body (tk : Tick) : M unit :=
  let currentTime := tk_millis tk in
  send_number currentTime (tk_write_ok tk) ;;
  connection_alive currentTime (tk_rssi tk) ;;
  emit (DelayMs 50).

(** The inner loop, run for the iterations in which the central is still
    connected. *)
Fixpoint connected_loop (ticks : list Tick) : M unit :=
  match ticks with
  | [] => ret tt
  | tk :: rest => connected_body tk ;; connected_loop rest
  end.

(** ** [loop()] (lines 142-220) *)

(** Lines 145-151. *)
Definition idle_heartbeat (currentTime : Z) : M unit :=
  g <- get ;;
  when (10000 <? ulong_sub currentTime (lastHeartbeat g)) (
    when (negb (wasConnected g)) (emit (Serial LnIdleHeartbeat)) ;;
    modify (set_lastHeartbeat currentTime)).

(** Lines 157-166. *)
Definition new_connection (currentTime : Z) (c : Central) : M unit :=
  g <- get ;;
  when (negb (wasConnected g)) (
    modify (set_wasConnected true) ;;
    modify (set_connectionStartTime currentTime) ;;
    modify (fun g => set_totalConnections (to_ulong (totalConnections g + 1)) g) ;;
    emit (Serial LnNewConnection) ;;
    g1 <- get ;;
    emit (Serial (LnConnectionInfo
           (ulong_sub (ce_info_millis c) (connectionStartTime g1) / 1000)
           (ce_info_rssi c))) ;;
    emit (Serial LnStartTransmission)).

(** Lines 200-215. *)
Definition connection_lost (c : Central) : M unit :=
  g <- get ;;
  emit (Serial (LnConnectionLost
         (ulong_sub (ce_lost_millis c) (connectionStartTime g) / 1000))) ;;
  modify (set_wasConnected false) ;;
  emit (Serial LnRestartingAdvertising) ;;
  emit BleAdvertise ;;
  emit (Serial LnAdvertisingRestarted) ;;
  modify (set_lastHeartbeat (ce_rearm_millis c)).

(** Lines 156-216: the branch taken when [BLE.central()] returned a
    central. *)
Definition serve_central (currentTime : Z) (c : Central) : M unit :=
  new_connection currentTime c ;;
  connected_loop (ce_ticks c) ;;
  connection_lost c.

Definition loop (p : Poll) : M unit :=
  let currentTime := pl_millis p in
  idle_heartbeat currentTime ;;
  match pl_central p with
  | Some c => serve_central currentTime c
  | None => ret tt
  end ;;
  emit (DelayMs 100).

(** ** [setup()] (lines 73-140) and the whole sketch *)

(** Where control is once [setup()] has run its straight-line part: in the
    [while (1)] of lines 96-99, or back in the Arduino core, which calls
    [loop()] for ever. *)
Inductive Control : Type :=
| Halted
| InLoop.

(** One iteration of the [while (1)] on lines 96-99. *)
Definition halted_body : M unit :=
  emit (DelayMs 1000) ;;
  emit (Serial LnHalted).

(** Lines 78-80, for the number of rounds the wait takes. *)
Fixpoint serial_wait (rounds : nat) : M unit :=
  match rounds with
  | O => ret tt
  | S n => emit (DelayMs 100) ;; serial_wait n
  end.

(** [setup()] up to the point where it either enters the [while (1)] or
    returns. *)
Definition setup (b : Boot) : M Control :=
  serial_wait (bt_serial_waits b) ;;
  emit (Serial LnBanner) ;;
  emit (BleBegin (bt_begin_ok b)) ;;
  if negb (bt_begin_ok b) then
    emit (Serial LnInitFailed) ;;
    ret Halted
  else
    emit (Serial LnConfigured) ;;
    emit BleConfigure ;;
    g <- get ;;
    emit (CharWrite (currentNumber g) (bt_write_ok b)) ;;
    (if bt_write_ok b
     then emit (Serial (LnInitialValue (currentNumber g)))
     else emit (Serial LnInitialValueFailed)) ;;
    emit BleAdvertise ;;
    emit (DelayMs 100) ;;
    emit (Serial LnSetupComplete) ;;
    modify (set_lastHeartbeat (bt_millis b)) ;;
    ret InLoop.

(** One step of the sketch after [setup()]'s straight-line part: one
    iteration of the [while (1)] when halted (the poll is not looked at), one
    call of [loop()] otherwise. *)
Definition sketch_step (c : Control) (p : Poll) : M Control :=
  match c with
  | Halted => halted_body ;; ret Halted
  | InLoop => loop p ;; ret InLoop
  end.

Fixpoint sketch_run (c : Control) (ps : list Poll) : M Control :=
  match ps with
  | [] => ret c
  | p :: rest => c1 <- sketch_step c p ;; sketch_run c1 rest
  end.

(** Power-on: [setup()] from the initial globals, then the steps. *)
Definition power_on (b : Boot) (ps : list Poll) : Control * Globals * list Event :=
  (c <- setup b ;; sketch_run c ps) initial_globals.

(** ** Reading traces *)

(** The characteristic writes of a trace, in order, with their results. *)
Definition write_of (e : Event) : list (Z * bool) :=
  match e with
  | CharWrite v ok => [(v, ok)]
  | _ => []
  end.

Definition writes (t : list Event) : list (Z * bool) := flat_map write_of t.

(** The values handed to [writeValue], and those whose write succeeded. *)
Definition attempted (t : list Event) : list Z := map fst (writes t).
Definition transmitted (t : list Event) : list Z :=
  map fst (filter snd (writes t)).

Definition is_advertise (e : Event) : bool :=
  match e with BleAdvertise => true | _ => false end.

Definition is_begin (e : Event) : bool :=
  match e with BleBegin _ => true | _ => false end.

Definition is_alive (e : Event) : bool :=
  match e with Serial (LnAlive _ _) => true | _ => false end.

(** The counter's range. *)
Definition counter_ok (g : Globals) : Prop := 0 <= currentNumber g <= 100.

(** The value lines 175-176 leave in [currentNumber]. *)
Definition next_number (c : Z) : Z :=
  let c1 := to_int (c + 1) in
  if 100 <? c1 then 0 else c1.

(** [c0+1, ..., c0+N] modulo 101. *)
Definition counting_from (c0 : Z) (N : nat) : list Z :=
  map (fun i => (c0 + Z.of_nat i) mod 101) (seq 1 N).

(** ** Auxiliary definitions for the statements and proofs *)

(** Unfolds the monad in a straight-line piece and splits on its tests. *)
Ltac run_piece :=
  unfold bind, when, get, modify, emit, ret; cbn;
  repeat match goal with
         | |- context [if ?b then _ else _] => destruct b eqn:?; cbn
         end.

(** The message printed after a write. *)
Definition send_report (currentTime : Z) (write_ok : bool) (g : Globals) : Line :=
  if write_ok
  then LnSent (currentNumber g) (ulong_sub currentTime (connectionStartTime g) / 1000)
  else LnSendFailed (currentNumber g).

(** A piece is quiet when it leaves the counter and the last-send timestamp
    alone and writes nothing to the characteristic. *)
Definition quiet {A} (m : M A) : Prop :=
  forall g,
    currentNumber (final (m g)) = currentNumber g /\
    lastNumberSent (final (m g)) = lastNumberSent g /\
    writes (trace (m g)) = [].

(** A piece counts when, started with the counter in range, each of its
    writes carries the successor modulo 101 of the value before it, and the
    counter ends at the last value written. *)
Definition counts {A} (m : M A) : Prop :=
  forall g, counter_ok g ->
    let N := length (attempted (trace (m g))) in
    attempted (trace (m g)) = counting_from (currentNumber g) N /\
    currentNumber (final (m g)) = (currentNumber g + Z.of_nat N) mod 101.

(** The trace of [n] iterations of the [while (1)]. *)
Fixpoint halted_trace (n : nat) : list Event :=
  match n with
  | O => []
  | S n' => DelayMs 1000 :: Serial LnHalted :: halted_trace n'
  end.

(** Lines 143-166: what runs before the connected loop is entered. *)
Definition enter_session (currentTime : Z) (c : Central) : M unit :=
  idle_heartbeat currentTime ;; new_connection currentTime c.

(** The states the sketch can be observed in: when [setup()] is done, when
    [loop()] returns, on entry to the connected loop, and after each of its
    passes. *)
Inductive Observable : Globals -> Prop :=
| Obs_setup b :
    Observable (final (setup b initial_globals))
| Obs_loop g p :
    Observable g -> Observable (final (loop p g))
| Obs_enter g currentTime c :
    Observable g ->
    Observable (final (enter_session currentTime c g))
| Obs_pass g tk :
    Observable g -> Observable (final (connected_body tk g)).

(** The connection reports (line 191) of a trace. *)
Definition alive_reports (t : list Event) : list Event := filter is_alive t.

(** ** The debug helpers (lines 17-71) *)

(** What the helpers send to the serial port: one entry per call of
    [Serial.print] or [Serial.println], with the string or the number
    printed. *)
Inductive Arg : Type :=
| Str (s : String.string)
| Num (n : Z).

Inductive Out : Type :=
| SerialPrint (a : Arg)
| SerialPrintln (a : Arg).

(** The platform the sketch is compiled for (the [#ifdef __AVR__] of line
    61).  On AVR [freeMemory] reads three addresses: [__brkval] (0 while the
    heap is unused), [&__bss_end] and the address of its local [top]. *)
Inductive Platform : Type :=
| AVR (brkval bss_end top : Z)
| OtherPlatform.

(** Two's complement integers of [bits] bits. *)
Definition wrap_signed (bits z : Z) : Z :=
  (z + 2 ^ (bits - 1)) mod 2 ^ bits - 2 ^ (bits - 1).

(** Lines 60-71.  On AVR [int] and pointer differences are 16 bits wide. *)
Definition freeMemory (pf : Platform) : Z :=
  match pf with
  | AVR brkval bss_end top =>
      wrap_signed 16 (if brkval =? 0 then top - bss_end else top - brkval)
  | OtherPlatform => -1
  end.

(** Lines 17-31; [now] is the reading of [millis()] on line 28. *)
Definition printSystemInfo (pf : Platform) (now : Z) : list Out :=
  [SerialPrintln (Str "=== SYSTEM INFO ==="%string)] ++
  (let memValue := freeMemory pf in
   if negb (memValue =? -1) then
     [SerialPrint (Str "Free memory: "%string);
      SerialPrint (Num memValue);
      SerialPrintln (Str " bytes"%string)]
   else
     [SerialPrintln (Str "Memory info: Not available on this platform"%string)]) ++
  [SerialPrint (Str "Uptime: "%string);
   SerialPrint (Num (now / 1000));
   SerialPrintln (Str " seconds"%string);
   SerialPrintln (Str "=================="%string)].

(** Lines 33-43; [address] is what [BLE.address()] returns. *)
Definition printBLEStatus (address : String.string) (g : Globals) : list Out :=
  [SerialPrintln (Str "=== BLE STATUS ==="%string);
   SerialPrintln (Str "BLE initialized: YES"%string);
   SerialPrintln (Str "Local name: ArduinoNumber"%string);
   SerialPrint (Str "Device address: "%string);
   SerialPrintln (Str address);
   SerialPrintln (Str "Advertising: Should be active"%string);
   SerialPrint (Str "Total connections: "%string);
   SerialPrintln (Num (totalConnections g));
   SerialPrintln (Str "=================="%string)].

(** Lines 45-57; [address], [name] and [rssi] are what the central's
    getters return, [now] is the reading of [millis()] on line 52. *)
Definition printConnectionInfo (address name : String.string) (now rssi : Z)
           (g : Globals) : list Out :=
  [SerialPrintln (Str "=== CONNECTION INFO ==="%string);
   SerialPrint (Str "Central address: "%string);
   SerialPrintln (Str address);
   SerialPrint (Str "Central device name: "%string);
   SerialPrintln (Str (if (0 <? String.length name)%nat
                       then name else "Unknown"%string));
   SerialPrint (Str "Connection time: "%string);
   SerialPrint (Num (ulong_sub now (connectionStartTime g) / 1000));
   SerialPrintln (Str " seconds"%string);
   SerialPrint (Str "RSSI: "%string);
   SerialPrintln (Num rssi);
   SerialPrintln (Str "======================="%string)].

(** The numbers and the strings a helper prints, in order. *)
Definition arg_of (o : Out) : Arg :=
  match o with SerialPrint a => a | SerialPrintln a => a end.

Definition numbers (out : list Out) : list Z :=
  flat_map (fun o => match arg_of o with Num n => [n] | Str _ => [] end) out.

Definition strings (out : list Out) : list String.string :=
  flat_map (fun o => match arg_of o with Str s => [s] | Num _ => [] end) out.

(** ** Further ways of reading runs *)

(** Calls of [loop()] in which [BLE.central()] returned a central. *)
Definition has_central (p : Poll) : bool :=
  match pl_central p with Some _ => true | None => false end.

Definition sessions (ps : list Poll) : nat := length (filter has_central ps).

(** The calls into the BLE library. *)
Definition is_ble_call (e : Event) : bool :=
  match e with
  | BleBegin _ | BleConfigure | CharWrite _ _ | BleAdvertise => true
  | _ => false
  end.

(** A piece never produces an event that [P] picks out. *)
Definition never {A} (P : Event -> bool) (m : M A) : Prop :=
  forall g, filter P (trace (m g)) = [].

(** A piece leaves the session bookkeeping alone. *)
Definition keeps_session {A} (m : M A) : Prop :=
  forall g,
    wasConnected (final (m g)) = wasConnected g /\
    connectionStartTime (final (m g)) = connectionStartTime g /\
    totalConnections (final (m g)) = totalConnections g.

(** The readings of [millis()] in the passes of a connected loop never go
    back, start at [lo] or later and stay at or below [hi]. *)
Fixpoint clock_ok (lo hi : Z) (ticks : list Tick) : Prop :=
  match ticks with
  | [] => lo <= hi
  | tk :: rest => lo <= tk_millis tk /\ clock_ok (tk_millis tk) hi rest
  end.

(** The passes of the connected loop made in one call of [loop()], and in a
    run of calls. *)
Definition poll_ticks (p : Poll) : list Tick :=
  match pl_central p with
  | Some c => ce_ticks c
  | None => []
  end.

Definition session_ticks (ps : list Poll) : list Tick := flat_map poll_ticks ps.

(** The test of line 173 for a pass, with [L] as the last-send timestamp. *)
Definition due_at (L : Z) (tk : Tick) : bool :=
  NUMBER_SEND_INTERVAL <=? ulong_sub (tk_millis tk) L.

(** The first pass of a run that is due against the last-send timestamp 0
    that power-on leaves. *)
Definition first_due_pass (ps : list Poll) : option Tick :=
  find (due_at 0) (session_ticks ps).

(** The first write of a trace [t] that starts in [g] and ends in [g'] is
    made by the first due pass among [ticks] and carries the successor of
    the counter; when no pass is due nothing is written and the counter and
    the last-send timestamp are kept. *)
Definition first_write_by (g : Globals) (t : list Event) (g' : Globals)
           (ticks : list Tick) : Prop :=
  hd_error (writes t) =
    option_map (fun tk => (next_number (currentNumber g), tk_write_ok tk))
               (find (due_at (lastNumberSent g)) ticks) /\
  (find (due_at (lastNumberSent g)) ticks = None ->
   writes t = [] /\
   currentNumber g' = currentNumber g /\
   lastNumberSent g' = lastNumberSent g).

(** ** Sanity checks on concrete runs *)

Example tick_at_1000 :
  connected_body (mkTick 1000 true (-60)) initial_globals =
  (tt, set_lastNumberSent 1000 (set_currentNumber 1 initial_globals),
   [CharWrite 1 true; Serial (LnSent 1 1); DelayMs 50]).
Proof. reflexivity. Qed.

Example tick_at_999 :
  connected_body (mkTick 999 true (-60)) initial_globals =
  (tt, initial_globals, [DelayMs 50]).
Proof. reflexivity. Qed.

Example wrap_at_100 :
  attempted (trace (connected_body (mkTick 5000 true (-60))
                      (set_currentNumber 100 initial_globals))) = [0].
Proof. reflexivity. Qed.

(** ** Laws of the monad *)

Lemma final_bind {A B} (m : M A) (k : A -> M B) g :
  final (bind m k g) = final (k (value (m g)) (final (m g))).
Proof.
  unfold bind, final, value.
  destruct (m g) as [[a g1] t1]; cbn.
  destruct (k a g1) as [[b g2] t2]; reflexivity.
Qed.

Lemma trace_bind {A B} (m : M A) (k : A -> M B) g :
  trace (bind m k g) = trace (m g) ++ trace (k (value (m g)) (final (m g))).
Proof.
  unfold bind, final, value, trace.
  destruct (m g) as [[a g1] t1]; cbn.
  destruct (k a g1) as [[b g2] t2]; reflexivity.
Qed.

Lemma value_bind {A B} (m : M A) (k : A -> M B) g :
  value (bind m k g) = value (k (value (m g)) (final (m g))).
Proof.
  unfold bind, final, value.
  destruct (m g) as [[a g1] t1]; cbn.
  destruct (k a g1) as [[b g2] t2]; reflexivity.
Qed.

Lemma writes_app t1 t2 : writes (t1 ++ t2) = writes t1 ++ writes t2.
Proof. apply flat_map_app. Qed.

Lemma attempted_app t1 t2 : attempted (t1 ++ t2) = attempted t1 ++ attempted t2.
Proof. unfold attempted. rewrite writes_app. apply map_app. Qed.

Lemma transmitted_all_ok t :
  forallb snd (writes t) = true -> transmitted t = attempted t.
Proof.
  unfold transmitted, attempted.
  induction (writes t) as [|[v ok] ws IH]; cbn; intros H; [reflexivity|].
  apply andb_prop in H. destruct H as [Hok Hws]. cbn in Hok. subst ok.
  cbn. f_equal. exact (IH Hws).
Qed.

(** ** Arithmetic of the counter *)

Lemma to_int_small z : - 2 ^ 31 <= z < 2 ^ 31 -> to_int z = z.
Proof. intros H. unfold to_int. rewrite Z.mod_small; lia. Qed.

Lemma next_number_mod c : 0 <= c <= 100 -> next_number c = (c + 1) mod 101.
Proof.
  intros H. unfold next_number. rewrite to_int_small by lia.
  destruct (Z.ltb_spec 100 (c + 1)).
  - replace c with 100 by lia. reflexivity.
  - rewrite Z.mod_small; lia.
Qed.

Lemma next_number_range c : 0 <= c <= 100 -> 0 <= next_number c <= 100.
Proof.
  intros H. rewrite next_number_mod by exact H.
  pose proof (Z.mod_pos_bound (c + 1) 101). lia.
Qed.

Lemma counting_from_app c0 N1 N2 :
  counting_from c0 (N1 + N2) =
  counting_from c0 N1 ++ counting_from ((c0 + Z.of_nat N1) mod 101) N2.
Proof.
  unfold counting_from. rewrite seq_app, map_app. f_equal.
  replace (seq (1 + N1) N2) with (map (fun i => (N1 + i)%nat) (seq 1 N2)).
  - rewrite map_map. apply map_ext. intros i.
    rewrite Zplus_mod_idemp_l. f_equal. lia.
  - clear. generalize 1%nat.
    induction N2 as [|n IH]; intros k; cbn [seq map]; [reflexivity|].
    f_equal; [lia|]. rewrite IH. reflexivity.
Qed.

Lemma counting_from_range c0 N :
  Forall (fun v => 0 <= v <= 100) (counting_from c0 N).
Proof.
  unfold counting_from. apply Forall_map, Forall_forall. intros i _.
  pose proof (Z.mod_pos_bound (c0 + Z.of_nat i) 101). lia.
Qed.

(** ** What each piece of the loop does *)

Lemma send_number_run currentTime write_ok g :
  send_number currentTime write_ok g =
  if send_due currentTime g then
    let g1 := set_currentNumber (next_number (currentNumber g)) g in
    (tt, set_lastNumberSent currentTime g1,
     [CharWrite (currentNumber g1) write_ok;
      Serial (send_report currentTime write_ok g1)])
  else (tt, g, []).
Proof.
  unfold send_number, send_report, next_number.
  unfold bind at 1. unfold get at 1. cbn beta iota.
  destruct (send_due currentTime g); [|reflexivity].
  destruct g as [hb cs tc wc n ls]; cbn.
  unfold bind, when, get, modify, emit, ret; cbn.
  destruct (100 <? to_int (n + 1)); destruct write_ok; reflexivity.
Qed.

Lemma connection_alive_run currentTime rssi g :
  connection_alive currentTime rssi g =
  if alive_due currentTime g then
    (tt, set_lastHeartbeat currentTime g,
     [Serial (LnAlive rssi (ulong_sub currentTime (connectionStartTime g) / 1000))])
  else (tt, g, []).
Proof.
  unfold connection_alive. unfold bind at 1. unfold get at 1. cbn beta iota.
  destruct (alive_due currentTime g); reflexivity.
Qed.

Lemma connected_body_run tk g :
  connected_body tk g =
  let r1 := send_number (tk_millis tk) (tk_write_ok tk) g in
  let r2 := connection_alive (tk_millis tk) (tk_rssi tk) (final r1) in
  (tt, final r2, trace r1 ++ trace r2 ++ [DelayMs 50]).
Proof.
  unfold connected_body, bind, emit, final, trace.
  destruct (send_number (tk_millis tk) (tk_write_ok tk) g) as [[[] g1] t1].
  cbn [fst snd].
  destruct (connection_alive (tk_millis tk) (tk_rssi tk) g1) as [[[] g2] t2].
  reflexivity.
Qed.

(** The connected loop run over [ticks1 ++ ticks2] is the loop run over
    [ticks1], then over [ticks2]: every prefix of a session is a run. *)
Lemma connected_loop_app ticks1 ticks2 g :
  final (connected_loop (ticks1 ++ ticks2) g) =
    final (connected_loop ticks2 (final (connected_loop ticks1 g))) /\
  trace (connected_loop (ticks1 ++ ticks2) g) =
    trace (connected_loop ticks1 g) ++
    trace (connected_loop ticks2 (final (connected_loop ticks1 g))).
Proof.
  revert g. induction ticks1 as [|tk ticks1 IH]; intros g.
  - split; reflexivity.
  - cbn [app connected_loop].
    rewrite !final_bind, !trace_bind.
    destruct (IH (final (connected_body tk g))) as [IHf IHt].
    rewrite IHf, IHt, app_assoc. split; reflexivity.
Qed.

(** ** Pieces that leave the counter and the send timer alone *)

Lemma quiet_bind {A B} (m : M A) (k : A -> M B) :
  quiet m -> (forall a, quiet (k a)) -> quiet (bind m k).
Proof.
  intros Hm Hk g. rewrite final_bind, trace_bind, writes_app.
  destruct (Hm g) as (Hn & Hl & Hw).
  destruct (Hk (value (m g)) (final (m g))) as (Hn' & Hl' & Hw').
  rewrite Hn', Hl', Hw, Hw', Hn, Hl. auto.
Qed.

Lemma quiet_idle_heartbeat currentTime : quiet (idle_heartbeat currentTime).
Proof. intros g. unfold idle_heartbeat. run_piece; auto. Qed.

Lemma quiet_new_connection currentTime c : quiet (new_connection currentTime c).
Proof. intros g. unfold new_connection. run_piece; auto. Qed.

Lemma quiet_connection_lost c : quiet (connection_lost c).
Proof. intros g. unfold connection_lost. run_piece; auto. Qed.

Lemma quiet_connection_alive currentTime rssi :
  quiet (connection_alive currentTime rssi).
Proof. intros g. unfold connection_alive. run_piece; auto. Qed.

Lemma quiet_halted_body : quiet halted_body.
Proof. intros g. unfold halted_body. run_piece; auto. Qed.

Lemma quiet_delay ms : quiet (emit (DelayMs ms)).
Proof. intros g. cbn. auto. Qed.

Lemma quiet_ret {A} (a : A) : quiet (ret a).
Proof. intros g. cbn. auto. Qed.

(** ** Pieces that count: each write carries the successor, modulo 101, of
    the value before it *)

Lemma counts_counter_ok {A} (m : M A) g :
  counts m -> counter_ok g -> counter_ok (final (m g)).
Proof.
  intros Hm Hg. destruct (Hm g Hg) as [_ Hn]. unfold counter_ok. rewrite Hn.
  match goal with |- context [?a mod 101] =>
    pose proof (Z.mod_pos_bound a 101) end. lia.
Qed.

Lemma quiet_counts {A} (m : M A) : quiet m -> counts m.
Proof.
  intros Hq g Hg. destruct (Hq g) as (Hn & _ & Hw).
  unfold attempted. rewrite Hw, Hn. cbn. split; [reflexivity|].
  rewrite Z.add_0_r, Z.mod_small; [reflexivity|]. unfold counter_ok in Hg. lia.
Qed.

Lemma counts_bind {A B} (m : M A) (k : A -> M B) :
  counts m -> (forall a, counts (k a)) -> counts (bind m k).
Proof.
  intros Hm Hk g Hg. cbv zeta.
  rewrite final_bind, trace_bind, attempted_app, length_app.
  destruct (Hm g Hg) as [Ha Hn].
  destruct (Hk (value (m g)) (final (m g)) (counts_counter_ok m g Hm Hg))
    as [Ha' Hn'].
  set (N1 := length (attempted (trace (m g)))) in *.
  set (N2 := length (attempted (trace (k (value (m g)) (final (m g)))))) in *.
  split.
  - rewrite counting_from_app, <- Hn, <- Ha', <- Ha. reflexivity.
  - rewrite Hn', Hn, Zplus_mod_idemp_l. f_equal. lia.
Qed.

Lemma counts_send_number currentTime write_ok :
  counts (send_number currentTime write_ok).
Proof.
  intros g Hg. rewrite send_number_run.
  destruct (send_due currentTime g); cbn.
  - rewrite next_number_mod by exact Hg. auto.
  - split; [reflexivity|].
    rewrite Z.add_0_r, Z.mod_small; [reflexivity|]. unfold counter_ok in Hg. lia.
Qed.

Lemma counts_connected_body tk : counts (connected_body tk).
Proof.
  unfold connected_body.
  apply counts_bind; [apply counts_send_number|intros _].
  apply quiet_counts, quiet_bind;
    [apply quiet_connection_alive|intros _; apply quiet_delay].
Qed.

Lemma counts_connected_loop ticks : counts (connected_loop ticks).
Proof.
  induction ticks as [|tk ticks IH]; cbn [connected_loop].
  - apply quiet_counts, quiet_ret.
  - apply counts_bind; [apply counts_connected_body|intros _; exact IH].
Qed.

Lemma counts_loop p : counts (loop p).
Proof.
  unfold loop.
  apply counts_bind; [apply quiet_counts, quiet_idle_heartbeat|intros _].
  apply counts_bind; [|intros _; apply quiet_counts, quiet_delay].
  destruct (pl_central p) as [c|]; [|apply quiet_counts, quiet_ret].
  unfold serve_central.
  apply counts_bind; [apply quiet_counts, quiet_new_connection|intros _].
  apply counts_bind; [apply counts_connected_loop|intros _].
  apply quiet_counts, quiet_connection_lost.
Qed.

Lemma counts_sketch_step c p : counts (sketch_step c p).
Proof.
  destruct c; cbn [sketch_step].
  - apply quiet_counts, quiet_bind; [apply quiet_halted_body|intros _; apply quiet_ret].
  - apply counts_bind; [apply counts_loop|intros _; apply quiet_counts, quiet_ret].
Qed.

Lemma counts_sketch_run ps : forall c, counts (sketch_run c ps).
Proof.
  induction ps as [|p ps IH]; intros c; cbn [sketch_run].
  - apply quiet_counts, quiet_ret.
  - apply counts_bind; [apply counts_sketch_step|intros c1; apply IH].
Qed.

(** ** [setup()] and the halted loop *)

Lemma serial_wait_run rounds g :
  serial_wait rounds g = (tt, g, repeat (DelayMs 100) rounds).
Proof.
  induction rounds as [|n IH]; [reflexivity|].
  cbn [serial_wait repeat]. unfold bind, emit. rewrite IH. reflexivity.
Qed.

Lemma repeat_delay_no_ble ms n :
  existsb is_advertise (repeat (DelayMs ms) n) = false /\
  filter is_begin (repeat (DelayMs ms) n) = [] /\
  writes (repeat (DelayMs ms) n) = [].
Proof. induction n as [|n IH]; cbn; auto. Qed.

Lemma setup_run b :
  setup b initial_globals =
  if bt_begin_ok b then
    (InLoop, set_lastHeartbeat (bt_millis b) initial_globals,
     repeat (DelayMs 100) (bt_serial_waits b) ++
     [Serial LnBanner; BleBegin true; Serial LnConfigured; BleConfigure;
      CharWrite 0 (bt_write_ok b);
      Serial (if bt_write_ok b then LnInitialValue 0 else LnInitialValueFailed);
      BleAdvertise; DelayMs 100; Serial LnSetupComplete])
  else
    (Halted, initial_globals,
     repeat (DelayMs 100) (bt_serial_waits b) ++
     [Serial LnBanner; BleBegin false; Serial LnInitFailed]).
Proof.
  unfold setup. unfold bind at 1. rewrite serial_wait_run.
  destruct b as [n [] [] t]; reflexivity.
Qed.

Lemma setup_counter b : currentNumber (final (setup b initial_globals)) = 0.
Proof. rewrite setup_run. destruct (bt_begin_ok b); reflexivity. Qed.

Lemma setup_lastNumberSent b : lastNumberSent (final (setup b initial_globals)) = 0.
Proof. rewrite setup_run. destruct (bt_begin_ok b); reflexivity. Qed.

Lemma setup_attempted b :
  Forall (fun v => 0 <= v <= 100) (attempted (trace (setup b initial_globals))).
Proof.
  destruct (repeat_delay_no_ble 100 (bt_serial_waits b)) as (_ & _ & Hw).
  rewrite setup_run. unfold attempted.
  destruct (bt_begin_ok b); cbn [trace snd]; rewrite writes_app, Hw; cbn;
    repeat constructor; lia.
Qed.

Lemma sketch_run_halted ps g :
  sketch_run Halted ps g = (Halted, g, halted_trace (length ps)).
Proof.
  induction ps as [|p ps IH]; [reflexivity|].
  cbn [sketch_run sketch_step length halted_trace].
  unfold bind at 1. unfold bind at 1.
  unfold halted_body, bind, emit, ret. cbn. rewrite IH. reflexivity.
Qed.

Lemma halted_trace_no_ble n :
  existsb is_advertise (halted_trace n) = false /\
  existsb is_begin (halted_trace n) = false /\
  writes (halted_trace n) = [].
Proof. induction n as [|n IH]; cbn; auto. Qed.

Lemma power_on_split b ps :
  let r0 := setup b initial_globals in
  let r1 := sketch_run (value r0) ps (final r0) in
  value (power_on b ps) = value r1 /\
  final (power_on b ps) = final r1 /\
  trace (power_on b ps) = trace r0 ++ trace r1.
Proof.
  cbv zeta. unfold power_on.
  rewrite value_bind, final_bind, trace_bind. auto.
Qed.

(** ** Unsigned time differences *)

Lemma ulong_sub_monotonic L T :
  0 <= L <= T -> T < ULONG_MODULUS -> ulong_sub T L = T - L.
Proof.
  intros H1 H2. unfold ulong_sub, to_ulong. apply Z.mod_small. lia.
Qed.

Lemma ulong_sub_offset L d :
  0 <= d < ULONG_MODULUS -> ulong_sub (to_ulong (L + d)) L = d.
Proof.
  intros H. unfold ulong_sub, to_ulong.
  rewrite Zminus_mod_idemp_l.
  replace (L + d - L) with d by lia. apply Z.mod_small. exact H.
Qed.

Lemma body_writes tk g :
  writes (trace (connected_body tk g)) =
  if send_due (tk_millis tk) g
  then [(next_number (currentNumber g), tk_write_ok tk)] else [].
Proof.
  rewrite connected_body_run. cbv zeta. unfold trace at 1. cbn [snd].
  rewrite !writes_app.
  destruct (quiet_connection_alive (tk_millis tk) (tk_rssi tk)
              (final (send_number (tk_millis tk) (tk_write_ok tk) g)))
    as (_ & _ & Hw).
  rewrite Hw, send_number_run.
  destruct (send_due (tk_millis tk) g); reflexivity.
Qed.

Lemma body_counter tk g :
  currentNumber (final (connected_body tk g)) =
  if send_due (tk_millis tk) g
  then next_number (currentNumber g) else currentNumber g.
Proof.
  rewrite connected_body_run. cbv zeta. unfold final at 1. cbn [fst snd].
  destruct (quiet_connection_alive (tk_millis tk) (tk_rssi tk)
              (final (send_number (tk_millis tk) (tk_write_ok tk) g)))
    as (Hn & _ & _).
  rewrite Hn, send_number_run.
  destruct (send_due (tk_millis tk) g); reflexivity.
Qed.

Lemma body_lastNumberSent tk g :
  lastNumberSent (final (connected_body tk g)) =
  if send_due (tk_millis tk) g then tk_millis tk else lastNumberSent g.
Proof.
  rewrite connected_body_run. cbv zeta. unfold final at 1. cbn [fst snd].
  destruct (quiet_connection_alive (tk_millis tk) (tk_rssi tk)
              (final (send_number (tk_millis tk) (tk_write_ok tk) g)))
    as (_ & Hl & _).
  rewrite Hl, send_number_run.
  destruct (send_due (tk_millis tk) g); reflexivity.
Qed.

(** Neither the result of [writeValue] nor the RSSI reading reaches the
    globals. *)
Lemma body_final_inputs T ok rssi ok' rssi' g :
  final (connected_body (mkTick T ok rssi) g) =
  final (connected_body (mkTick T ok' rssi') g).
Proof.
  rewrite !connected_body_run. cbv zeta. unfold final at 1 3. cbn [fst snd].
  cbn [tk_millis tk_write_ok tk_rssi].
  rewrite !send_number_run, !connection_alive_run.
  destruct (send_due T g); cbn [final fst snd];
    match goal with |- context [alive_due T ?x] => destruct (alive_due T x) end;
    reflexivity.
Qed.

(** ** One call of [loop()] with a central *)

Lemma quiet_enter_session currentTime c : quiet (enter_session currentTime c).
Proof.
  apply quiet_bind; [apply quiet_idle_heartbeat|intros _; apply quiet_new_connection].
Qed.

Lemma loop_central_run p c g :
  pl_central p = Some c ->
  let r1 := enter_session (pl_millis p) c g in
  let r2 := connected_loop (ce_ticks c) (final r1) in
  let r3 := connection_lost c (final r2) in
  final (loop p g) = final r3 /\
  trace (loop p g) = trace r1 ++ trace r2 ++ trace r3 ++ [DelayMs 100].
Proof.
  intros Hc. cbv zeta. unfold loop, serve_central, enter_session. rewrite Hc.
  rewrite !final_bind, !trace_bind. split; [reflexivity|].
  rewrite !final_bind. cbn [emit trace snd]. rewrite <- !app_assoc. reflexivity.
Qed.

Lemma loop_idle_run p g :
  pl_central p = None ->
  final (loop p g) = final (idle_heartbeat (pl_millis p) g) /\
  trace (loop p g) = trace (idle_heartbeat (pl_millis p) g) ++ [DelayMs 100].
Proof.
  intros Hc. unfold loop. rewrite Hc.
  rewrite !final_bind, !trace_bind. split; reflexivity.
Qed.

Lemma connection_lost_run c g :
  connection_lost c g =
  (tt, set_lastHeartbeat (ce_rearm_millis c) (set_wasConnected false g),
   [Serial (LnConnectionLost
      (ulong_sub (ce_lost_millis c) (connectionStartTime g) / 1000));
    Serial LnRestartingAdvertising; BleAdvertise; Serial LnAdvertisingRestarted]).
Proof. reflexivity. Qed.

Lemma quiet_loop_idle p : pl_central p = None -> quiet (loop p).
Proof.
  intros Hc. unfold loop. rewrite Hc.
  apply quiet_bind; [apply quiet_idle_heartbeat|intros _].
  apply quiet_bind; [apply quiet_ret|intros _; apply quiet_delay].
Qed.

Lemma quiet_sketch_run_idle ps :
  Forall (fun p => pl_central p = None) ps ->
  forall c, quiet (sketch_run c ps).
Proof.
  induction 1 as [|p ps Hp _ IH]; intros c; cbn [sketch_run].
  - apply quiet_ret.
  - apply quiet_bind; [|intros c1; apply IH].
    destruct c; cbn [sketch_step].
    + apply quiet_bind; [apply quiet_halted_body|intros _; apply quiet_ret].
    + apply quiet_bind; [apply quiet_loop_idle, Hp|intros _; apply quiet_ret].
Qed.


(** The send scheduler leaves the heartbeat timer and the session start
    alone and prints no connection report. *)
Lemma send_number_lastHeartbeat currentTime write_ok g :
  lastHeartbeat (final (send_number currentTime write_ok g)) = lastHeartbeat g /\
  connectionStartTime (final (send_number currentTime write_ok g)) =
    connectionStartTime g /\
  alive_reports (trace (send_number currentTime write_ok g)) = [].
Proof.
  rewrite send_number_run.
  destruct (send_due currentTime g); cbn; [|auto].
  unfold send_report. destruct write_ok; auto.
Qed.

(** ** The first write of a run *)

Lemma find_app_first {A} (f : A -> bool) (l1 l2 : list A) :
  find f (l1 ++ l2) =
  match find f l1 with Some x => Some x | None => find f l2 end.
Proof.
  induction l1 as [|a l1 IH]; [reflexivity|].
  cbn [app find]. destruct (f a); [reflexivity|exact IH].
Qed.

Lemma first_write_by_app g t1 g1 k1 t2 g2 k2 :
  first_write_by g t1 g1 k1 ->
  first_write_by g1 t2 g2 k2 ->
  first_write_by g (t1 ++ t2) g2 (k1 ++ k2).
Proof.
  intros [H1 N1] [H2 N2]. unfold first_write_by.
  rewrite writes_app, find_app_first.
  destruct (find (due_at (lastNumberSent g)) k1) as [tk|].
  - split; [|discriminate].
    destruct (writes t1) as [|w ws]; [discriminate|exact H1].
  - destruct (N1 eq_refl) as (Hw & Hn & Hl).
    rewrite Hw, <- Hn, <- Hl. cbn [app]. split; [exact H2|].
    intros Hnone. destruct (N2 Hnone) as (Hw2 & Hn2 & Hl2).
    rewrite Hw2, Hn2, Hl2. auto.
Qed.

Lemma first_write_by_ticks g t g' k k' :
  k = k' -> first_write_by g t g' k -> first_write_by g t g' k'.
Proof. intros <-. exact (fun H => H). Qed.

Lemma first_write_by_quiet {A} (m : M A) g :
  quiet m -> first_write_by g (trace (m g)) (final (m g)) [].
Proof.
  intros Hq. destruct (Hq g) as (Hn & Hl & Hw).
  unfold first_write_by. rewrite Hw. cbn. auto.
Qed.

Lemma first_write_by_body tk g :
  first_write_by g (trace (connected_body tk g)) (final (connected_body tk g)) [tk].
Proof.
  unfold first_write_by.
  rewrite body_writes, body_counter, body_lastNumberSent. cbn [find].
  change (send_due (tk_millis tk) g) with (due_at (lastNumberSent g) tk).
  destruct (due_at (lastNumberSent g) tk); cbn; split; auto; discriminate.
Qed.

Lemma first_write_by_connected_loop ticks :
  forall g,
    first_write_by g (trace (connected_loop ticks g))
                   (final (connected_loop ticks g)) ticks.
Proof.
  induction ticks as [|tk ticks IH]; intros g.
  - apply (first_write_by_quiet (connected_loop []) g), quiet_ret.
  - cbn [connected_loop]. rewrite trace_bind, final_bind.
    change (tk :: ticks) with ([tk] ++ ticks).
    eapply first_write_by_app; [apply first_write_by_body|apply IH].
Qed.

Lemma first_write_by_loop p g :
  first_write_by g (trace (loop p g)) (final (loop p g)) (poll_ticks p).
Proof.
  unfold poll_ticks. destruct (pl_central p) as [c|] eqn:Hc.
  - destruct (loop_central_run p c g Hc) as [Hf Ht]. rewrite Hf, Ht.
    apply (first_write_by_ticks _ _ _ ([] ++ ce_ticks c ++ [] ++ []));
      [cbn [app]; apply app_nil_r|].
    eapply first_write_by_app;
      [apply first_write_by_quiet, quiet_enter_session|].
    eapply first_write_by_app; [apply first_write_by_connected_loop|].
    eapply first_write_by_app;
      [apply first_write_by_quiet, quiet_connection_lost|].
    unfold first_write_by. cbn. auto.
  - apply (first_write_by_quiet (loop p) g), quiet_loop_idle, Hc.
Qed.

Lemma first_write_by_sketch_run ps :
  forall g,
    first_write_by g (trace (sketch_run InLoop ps g))
                   (final (sketch_run InLoop ps g)) (session_ticks ps).
Proof.
  induction ps as [|p ps IH]; intros g.
  - apply (first_write_by_quiet (sketch_run InLoop []) g), quiet_ret.
  - assert (Hrun : final (sketch_run InLoop (p :: ps) g) =
                   final (sketch_run InLoop ps (final (loop p g))) /\
                   trace (sketch_run InLoop (p :: ps) g) =
                   trace (loop p g) ++
                   trace (sketch_run InLoop ps (final (loop p g)))).
    { cbn [sketch_run sketch_step].
      rewrite final_bind, trace_bind, value_bind, final_bind, trace_bind.
      cbn [ret value final trace fst snd]. rewrite app_nil_r. auto. }
    destruct Hrun as [Hf Ht]. rewrite Hf, Ht.
    unfold session_ticks. cbn [flat_map].
    eapply first_write_by_app; [apply first_write_by_loop|apply IH].
Qed.


(** * The claims *)

(** C1.  Started with the counter at [c0] in [0, 100], the values a session
    hands to the characteristic are [c0+1, c0+2, ..., c0+N] modulo 101, each
    in [0, 100]; when every write succeeds these are the values transmitted;
    and a send that fires with the counter at 100 writes 0. *)
Theorem transmitted_sequence_mod_101 (g : Globals) (ticks : list Tick) :
  counter_ok g ->
  let t := trace (connected_loop ticks g) in
  attempted t = counting_from (currentNumber g) (length (attempted t)) /\
  Forall (fun v => 0 <= v <= 100) (attempted t) /\
  (forallb snd (writes t) = true ->
   transmitted t = counting_from (currentNumber g) (length (transmitted t))) /\
  (forall tk, currentNumber g = 100 -> send_due (tk_millis tk) g = true ->
   writes (trace (connected_body tk g)) = [(0, tk_write_ok tk)]).
Proof.
  intros Hg t.
  destruct (counts_connected_loop ticks g Hg) as [Ha _]. fold t in Ha.
  split; [exact Ha|]. split; [rewrite Ha; apply counting_from_range|]. split.
  - intros Hok. rewrite (transmitted_all_ok t Hok). exact Ha.
  - intros tk H100 Hdue. rewrite body_writes, Hdue, H100. reflexivity.
Qed.

Lemma transmitted_sequence_mod_101_witness :
  let g := set_currentNumber 99 initial_globals in
  let ticks := [mkTick 1000 true (-60); mkTick 1500 true (-60);
                mkTick 2000 true (-60); mkTick 3000 true (-60)] in
  let t := trace (connected_loop ticks g) in
  attempted t = counting_from 99 3 /\ transmitted t = [100; 0; 1].
Proof.
  cbv zeta.
  destruct (transmitted_sequence_mod_101
              (set_currentNumber 99 initial_globals)
              [mkTick 1000 true (-60); mkTick 1500 true (-60);
               mkTick 2000 true (-60); mkTick 3000 true (-60)])
    as (Ha & _ & Ht & _).
  - unfold counter_ok; cbn; lia.
  - split; [exact Ha|]. rewrite Ht; reflexivity.
Defined.

(** C2.  In a pass of the connected loop at time [T] with last-send
    timestamp [L], a send is triggered exactly when the unsigned difference
    [T - L] is at least 1000; for a monotonic reading ([L <= T]) that is the
    plain difference; at [T = L + 999] nothing is sent and at [T = L + 1000]
    the next number is. *)
Theorem send_iff_interval_elapsed (tk : Tick) (g : Globals) :
  let T := tk_millis tk in
  let L := lastNumberSent g in
  let sent := writes (trace (connected_body tk g)) in
  (sent <> [] <-> NUMBER_SEND_INTERVAL <= ulong_sub T L) /\
  (0 <= L <= T -> T < ULONG_MODULUS -> (sent <> [] <-> T - L >= 1000)) /\
  (T = to_ulong (L + 999) -> sent = []) /\
  (T = to_ulong (L + 1000) ->
   sent = [(next_number (currentNumber g), tk_write_ok tk)]).
Proof.
  cbv zeta. rewrite body_writes. unfold send_due.
  assert (Hiff : (if NUMBER_SEND_INTERVAL <=? ulong_sub (tk_millis tk) (lastNumberSent g)
                  then [(next_number (currentNumber g), tk_write_ok tk)]
                  else []) <> [] <->
                 NUMBER_SEND_INTERVAL <= ulong_sub (tk_millis tk) (lastNumberSent g)).
  { destruct (Z.leb_spec NUMBER_SEND_INTERVAL
                (ulong_sub (tk_millis tk) (lastNumberSent g))); split;
      intros; try congruence; try lia; discriminate. }
  split; [exact Hiff|]. split; [|split].
  - intros H1 H2. rewrite Hiff, (ulong_sub_monotonic _ _ H1 H2).
    unfold NUMBER_SEND_INTERVAL. lia.
  - intros ->. rewrite ulong_sub_offset by (unfold ULONG_MODULUS; lia).
    reflexivity.
  - intros ->. rewrite ulong_sub_offset by (unfold ULONG_MODULUS; lia).
    reflexivity.
Qed.

Lemma send_iff_interval_elapsed_witness :
  let g := set_lastNumberSent 5000 initial_globals in
  writes (trace (connected_body (mkTick 5999 true (-60)) g)) = [] /\
  writes (trace (connected_body (mkTick 6000 true (-60)) g)) = [(1, true)] /\
  writes (trace (connected_body (mkTick 7250 true (-60)) g)) <> [].
Proof.
  cbv zeta. split; [|split].
  - apply (send_iff_interval_elapsed (mkTick 5999 true (-60))
             (set_lastNumberSent 5000 initial_globals)). reflexivity.
  - apply (send_iff_interval_elapsed (mkTick 6000 true (-60))
             (set_lastNumberSent 5000 initial_globals)). reflexivity.
  - apply (send_iff_interval_elapsed (mkTick 7250 true (-60))
             (set_lastNumberSent 5000 initial_globals)).
    + cbn; lia.
    + reflexivity.
    + cbn; lia.
Defined.

(** C3.  The counter is in [0, 100] in every observable state, every value
    handed to the characteristic is in [0, 100], and the value written in a
    pass is the counter as that pass leaves it, the wrap to 0 included. *)
Theorem counter_range_invariant :
  (forall g, Observable g -> counter_ok g) /\
  (forall b ps,
     counter_ok (final (power_on b ps)) /\
     Forall (fun v => 0 <= v <= 100) (attempted (trace (power_on b ps)))) /\
  (forall g tk, Observable g ->
     Forall (fun v => 0 <= v <= 100) (attempted (trace (connected_body tk g))) /\
     Forall (fun v => v = currentNumber (final (connected_body tk g)))
            (attempted (trace (connected_body tk g)))).
Proof.
  assert (Hobs : forall g, Observable g -> counter_ok g).
  { induction 1 as [b|g p _ IH|g T c _ IH|g tk _ IH].
    - unfold counter_ok. rewrite setup_counter. lia.
    - exact (counts_counter_ok _ g (counts_loop p) IH).
    - exact (counts_counter_ok _ g (quiet_counts _ (quiet_enter_session T c)) IH).
    - exact (counts_counter_ok _ g (counts_connected_body tk) IH). }
  split; [exact Hobs|]. split.
  - intros b ps. destruct (power_on_split b ps) as (_ & Hf & Ht).
    assert (H0 : counter_ok (final (setup b initial_globals)))
      by (apply Hobs; constructor).
    rewrite Hf, Ht, attempted_app. split.
    + exact (counts_counter_ok _ _
               (counts_sketch_run ps (value (setup b initial_globals))) H0).
    + apply Forall_app. split; [apply setup_attempted|].
      destruct (counts_sketch_run ps (value (setup b initial_globals)) _ H0)
        as [Ha _].
      rewrite Ha. apply counting_from_range.
  - intros g tk Hg. unfold attempted.
    rewrite body_writes, body_counter.
    destruct (send_due (tk_millis tk) g); cbn; repeat constructor;
      apply next_number_range, Hobs, Hg.
Qed.

Lemma counter_range_invariant_witness :
  let g := final (connected_body (mkTick 1000 true (-60))
                    (final (setup (mkBoot 0 true true 0) initial_globals))) in
  counter_ok g /\
  Forall (fun v => 0 <= v <= 100)
         (attempted (trace (connected_body (mkTick 2000 true (-60)) g))).
Proof.
  cbv zeta. destruct counter_range_invariant as (Hobs & _ & Hpass).
  split.
  - apply Hobs. apply Obs_pass, Obs_setup.
  - apply Hpass. apply Obs_pass, Obs_setup.
Defined.

(** C4.  On a qualifying pass the last-send timestamp becomes the current
    time, exactly one write is attempted, the counter has advanced, and the
    globals after the pass are the same whether the write succeeded or
    failed. *)
Theorem timestamp_updated_regardless_of_write (T rssi : Z) (ok : bool) (g : Globals) :
  send_due T g = true ->
  let r := connected_body (mkTick T ok rssi) g in
  lastNumberSent (final r) = T /\
  writes (trace r) = [(next_number (currentNumber g), ok)] /\
  currentNumber (final r) = next_number (currentNumber g) /\
  final (connected_body (mkTick T false rssi) g) =
  final (connected_body (mkTick T true rssi) g).
Proof.
  intros Hdue r. subst r.
  rewrite body_lastNumberSent, body_writes, body_counter.
  cbn [tk_millis tk_write_ok]. rewrite Hdue.
  repeat split. apply body_final_inputs.
Qed.

Lemma timestamp_updated_regardless_of_write_witness :
  let g := set_currentNumber 41 (set_lastNumberSent 5000 initial_globals) in
  let r := connected_body (mkTick 6200 false (-70)) g in
  lastNumberSent (final r) = 6200 /\
  writes (trace r) = [(42, false)] /\
  currentNumber (final r) = 42 /\
  final (connected_body (mkTick 6200 false (-70)) g) =
  final (connected_body (mkTick 6200 true (-70)) g).
Proof.
  cbv zeta.
  apply (timestamp_updated_regardless_of_write 6200 (-70) false
           (set_currentNumber 41 (set_lastNumberSent 5000 initial_globals))).
  reflexivity.
Defined.

(** C5.  When the central is no longer connected, [loop()] finishes by
    running the disconnect code on the globals the connected loop left:
    the session flag is cleared, [BLE.advertise()] is called, the heartbeat
    timer is set to the current time, and the counter keeps its value, also
    through the start of the next connection. *)
Theorem disconnect_rearms_and_keeps_counter (p : Poll) (c : Central) (g : Globals) :
  pl_central p = Some c ->
  let r1 := enter_session (pl_millis p) c g in
  let r2 := connected_loop (ce_ticks c) (final r1) in
  let before := final r2 in
  let after := final (loop p g) in
  after = set_lastHeartbeat (ce_rearm_millis c) (set_wasConnected false before) /\
  wasConnected after = false /\
  lastHeartbeat after = ce_rearm_millis c /\
  currentNumber after = currentNumber before /\
  trace (loop p g) =
    trace r1 ++ trace r2 ++
    [Serial (LnConnectionLost
       (ulong_sub (ce_lost_millis c) (connectionStartTime before) / 1000));
     Serial LnRestartingAdvertising; BleAdvertise; Serial LnAdvertisingRestarted;
     DelayMs 100] /\
  (forall currentTime c',
     currentNumber (final (enter_session currentTime c' after)) =
     currentNumber before).
Proof.
  intros Hc. cbv zeta.
  destruct (loop_central_run p c g Hc) as [Hf Ht].
  rewrite Hf, Ht, connection_lost_run. cbn [final trace fst snd].
  repeat split.
  intros T c'. destruct (quiet_enter_session T c'
    (set_lastHeartbeat (ce_rearm_millis c)
       (set_wasConnected false
          (snd (fst (connected_loop (ce_ticks c)
             (snd (fst (enter_session (pl_millis p) c g))))))))) as (Hn & _ & _).
  exact Hn.
Qed.

Lemma disconnect_rearms_and_keeps_counter_witness :
  let c := mkCentral 4000 (-55) [mkTick 4000 true (-55); mkTick 5000 true (-55)]
                     5050 5050 in
  let after := final (loop (mkPoll 4000 (Some c)) initial_globals) in
  wasConnected after = false /\ lastHeartbeat after = 5050 /\
  currentNumber after = 2.
Proof.
  cbv zeta.
  destruct (disconnect_rearms_and_keeps_counter
    (mkPoll 4000
       (Some (mkCentral 4000 (-55) [mkTick 4000 true (-55); mkTick 5000 true (-55)]
                        5050 5050)))
    (mkCentral 4000 (-55) [mkTick 4000 true (-55); mkTick 5000 true (-55)]
               5050 5050)
    initial_globals eq_refl) as (_ & Hw & Hh & Hn & _).
  split; [exact Hw|]. split; [exact Hh|]. rewrite Hn. reflexivity.
Defined.

(** C6.  Calls of [loop()] in which [BLE.central()] returns no central write
    nothing to the characteristic and leave the counter and the last-send
    timestamp as they were; the idle heartbeat line is still printed when
    more than ten seconds have passed since the heartbeat timer was set. *)
Theorem idle_loop_never_sends (ps : list Poll) (g : Globals) :
  Forall (fun p => pl_central p = None) ps ->
  let r := sketch_run InLoop ps g in
  writes (trace r) = [] /\
  currentNumber (final r) = currentNumber g /\
  lastNumberSent (final r) = lastNumberSent g /\
  (forall p, pl_central p = None -> wasConnected g = false ->
     10000 < ulong_sub (pl_millis p) (lastHeartbeat g) ->
     trace (loop p g) = [Serial LnIdleHeartbeat; DelayMs 100] /\
     currentNumber (final (loop p g)) = currentNumber g /\
     lastNumberSent (final (loop p g)) = lastNumberSent g).
Proof.
  intros Hps r.
  destruct (quiet_sketch_run_idle ps Hps InLoop g) as (Hn & Hl & Hw).
  split; [exact Hw|]. split; [exact Hn|]. split; [exact Hl|].
  intros p Hc Hwc Hhb.
  destruct (quiet_loop_idle p Hc g) as (Hn' & Hl' & _).
  split; [|split; assumption].
  destruct (loop_idle_run p g Hc) as [_ Ht]. rewrite Ht.
  unfold idle_heartbeat, bind, when, get, modify, emit, ret, trace.
  apply Z.ltb_lt in Hhb. rewrite Hhb, Hwc. reflexivity.
Qed.

Lemma idle_loop_never_sends_witness :
  let g := set_lastNumberSent 700 (set_currentNumber 17 initial_globals) in
  let r := sketch_run InLoop [mkPoll 5000 None; mkPoll 10001 None; mkPoll 20500 None] g in
  writes (trace r) = [] /\ currentNumber (final r) = 17 /\
  lastNumberSent (final r) = 700 /\
  trace (loop (mkPoll 10001 None) g) = [Serial LnIdleHeartbeat; DelayMs 100].
Proof.
  cbv zeta.
  destruct (idle_loop_never_sends
    [mkPoll 5000 None; mkPoll 10001 None; mkPoll 20500 None]
    (set_lastNumberSent 700 (set_currentNumber 17 initial_globals)))
    as (Hw & Hn & Hl & Hhb).
  - repeat constructor.
  - split; [exact Hw|]. split; [exact Hn|]. split; [exact Hl|].
    apply (Hhb (mkPoll 10001 None)); [reflexivity|reflexivity|cbn; lia].
Defined.

(** C7.  When [BLE.begin()] fails, [setup()] enters the [while (1)] and
    stays in it for any number of steps: after the wait for the serial port
    the trace is the failure report followed by the halted line once per
    second, [BLE.begin()] is called
    once, [BLE.advertise()] and [writeValue] never, [loop()] is never
    reached and the globals keep their initial values. *)
Theorem begin_failure_halts_forever (b : Boot) (ps : list Poll) :
  bt_begin_ok b = false ->
  let r := power_on b ps in
  value r = Halted /\
  final r = initial_globals /\
  trace r = repeat (DelayMs 100) (bt_serial_waits b)
            ++ [Serial LnBanner; BleBegin false; Serial LnInitFailed]
            ++ halted_trace (length ps) /\
  existsb is_advertise (trace r) = false /\
  length (filter is_begin (trace r)) = 1%nat /\
  writes (trace r) = [] /\
  (forall p g, value (sketch_step Halted p g) = Halted).
Proof.
  intros Hb r. subst r.
  destruct (power_on_split b ps) as (Hv & Hf & Ht).
  rewrite Hv, Hf, Ht, setup_run, Hb. cbn [value final trace fst snd].
  rewrite sketch_run_halted. cbn [value final trace fst snd].
  destruct (halted_trace_no_ble (length ps)) as (Ha & Hg & Hw).
  destruct (repeat_delay_no_ble 100 (bt_serial_waits b)) as (Ha0 & Hg0 & Hw0).
  split; [reflexivity|]. split; [reflexivity|].
  split; [rewrite <- app_assoc; reflexivity|].
  rewrite <- app_assoc. split; [|split; [|split]].
  - rewrite existsb_app, Ha0. cbn. exact Ha.
  - rewrite filter_app, Hg0. cbn. f_equal. clear -Hg.
    induction (halted_trace (length ps)) as [|e t IH]; [reflexivity|].
    cbn in Hg |- *. apply orb_false_elim in Hg. destruct Hg as [He Hg].
    rewrite He. exact (IH Hg).
  - rewrite !writes_app, Hw0, Hw. reflexivity.
  - reflexivity.
Qed.

Lemma begin_failure_halts_forever_witness :
  let r := power_on (mkBoot 2 false true 212)
                    [mkPoll 1212 None; mkPoll 2212 None; mkPoll 3212 None] in
  value r = Halted /\
  trace r = [DelayMs 100; DelayMs 100;
             Serial LnBanner; BleBegin false; Serial LnInitFailed;
             DelayMs 1000; Serial LnHalted; DelayMs 1000; Serial LnHalted;
             DelayMs 1000; Serial LnHalted].
Proof.
  cbv zeta.
  destruct (begin_failure_halts_forever (mkBoot 2 false true 212)
              [mkPoll 1212 None; mkPoll 2212 None; mkPoll 3212 None] eq_refl)
    as (Hv & _ & Ht & _).
  split; [exact Hv|exact Ht].
Defined.

(** A run from power-on in which the central connects ten seconds after the
    heartbeat timer was set: the connection report is printed when the
    session is twenty seconds old. *)
Example alive_report_in_a_run :
  let c := mkCentral 10000 (-60)
             [mkTick 10000 true (-60); mkTick 29950 true (-60);
              mkTick 30001 true (-61)] 30060 30060 in
  let r := power_on (mkBoot 0 true true 0) [mkPoll 10000 (Some c)] in
  alive_reports (trace r) = [Serial (LnAlive (-61) 20)].
Proof. reflexivity. Qed.

(** C8, as the claim states it, fails: a connection report can be printed
    before the session is 30 seconds old.  Here the heartbeat timer was set
    at time 0 by [setup()], the central connected at 10000, and the pass at
    30001 prints the report although the session is 20001 ms old. *)
Lemma alive_report_not_by_session_age :
  ~ (forall g tk,
       Observable g -> wasConnected g = true ->
       alive_reports (trace (connected_body tk g)) <> [] ->
       30000 <= ulong_sub (tk_millis tk) (connectionStartTime g)).
Proof.
  intros H.
  specialize (H (final (enter_session 10000 (mkCentral 10000 (-60) [] 0 0)
                          (final (setup (mkBoot 0 true true 0) initial_globals))))
                (mkTick 30001 true (-61))).
  assert (Hage : 30000 <= 20001); [|lia].
  apply H.
  - apply Obs_enter, Obs_setup.
  - reflexivity.
  - discriminate.
Qed.

(** C8, amended.  A pass of the connected loop prints the connection report,
    with the RSSI reading, exactly when more than 30000 ms have passed since
    the heartbeat timer was last set, and then sets the timer to the current
    time; starting a session does not set the timer. *)
Theorem alive_report_follows_heartbeat_timer (tk : Tick) (g : Globals) :
  let T := tk_millis tk in
  let r := connected_body tk g in
  alive_reports (trace r) =
    (if alive_due T g
     then [Serial (LnAlive (tk_rssi tk)
                     (ulong_sub T (connectionStartTime g) / 1000))]
     else []) /\
  lastHeartbeat (final r) = (if alive_due T g then T else lastHeartbeat g) /\
  (alive_due T g = true <-> 30000 < ulong_sub T (lastHeartbeat g)) /\
  (0 <= lastHeartbeat g <= T -> T < ULONG_MODULUS ->
   (alive_due T g = true <-> T - lastHeartbeat g > 30000)) /\
  (forall currentTime c,
     lastHeartbeat (final (new_connection currentTime c g)) = lastHeartbeat g).
Proof.
  cbv zeta. rewrite connected_body_run. cbv zeta.
  cbn [final trace fst snd].
  destruct (send_number_lastHeartbeat (tk_millis tk) (tk_write_ok tk) g)
    as (Hh & Hc & Ha).
  assert (Hd : alive_due (tk_millis tk)
                 (final (send_number (tk_millis tk) (tk_write_ok tk) g)) =
               alive_due (tk_millis tk) g)
    by (unfold alive_due; rewrite Hh; reflexivity).
  unfold alive_reports in *. rewrite !filter_app, Ha.
  rewrite connection_alive_run, Hd, Hc.
  split; [|split; [|split; [|split]]].
  - destruct (alive_due (tk_millis tk) g); reflexivity.
  - destruct (alive_due (tk_millis tk) g); [reflexivity|exact Hh].
  - unfold alive_due. apply Z.ltb_lt.
  - intros H1 H2. unfold alive_due.
    rewrite Z.ltb_lt, (ulong_sub_monotonic _ _ H1 H2). lia.
  - intros T0 c. unfold new_connection. run_piece; reflexivity.
Qed.

Lemma alive_report_follows_heartbeat_timer_witness :
  let g := set_connectionStartTime 10000 (set_wasConnected true initial_globals) in
  (alive_due 30001 g = true <-> 30001 - 0 > 30000) /\
  alive_reports (trace (connected_body (mkTick 30001 true (-61)) g)) =
    [Serial (LnAlive (-61) 20)].
Proof.
  cbv zeta.
  destruct (alive_report_follows_heartbeat_timer (mkTick 30001 true (-61))
    (set_connectionStartTime 10000 (set_wasConnected true initial_globals)))
    as (Ha & _ & _ & Hm & _).
  split.
  - apply Hm; cbn; lia.
  - rewrite Ha. reflexivity.
Defined.

(** A run from power-on with one session: the value 0 is written by
    [setup()] before any connection, the session then writes 1 and 2. *)
Example first_session_run :
  let c := mkCentral 7300 (-60)
             [mkTick 7300 true (-60); mkTick 7350 true (-60);
              mkTick 8300 true (-60)] 8400 8400 in
  attempted (trace (power_on (mkBoot 0 true true 40) [mkPoll 2000 None; mkPoll 7300 (Some c)]))
  = [0; 1; 2].
Proof. reflexivity. Qed.

(** C9, as the claim states it, fails for the values that get through:
    when the write of the first due pass fails it is not retried, and the
    first value transmitted during a connection is 2. *)
Lemma first_transmitted_value_not_always_one :
  ~ (forall b ps v rest,
       transmitted (trace (sketch_run (value (setup b initial_globals)) ps
                             (final (setup b initial_globals)))) = v :: rest ->
       v = 1).
Proof.
  intros H.
  assert (Hrun : transmitted
            (trace (sketch_run (value (setup (mkBoot 0 true true 40) initial_globals))
                      [mkPoll 7300
                         (Some (mkCentral 7300 (-60)
                                  [mkTick 7300 false (-60); mkTick 8300 true (-60)]
                                  8400 8400))]
                      (final (setup (mkBoot 0 true true 40) initial_globals))))
                 = [2]) by reflexivity.
  specialize (H _ _ _ _ Hrun). discriminate H.
Qed.

(** C9, amended.  [setup()] leaves the counter and the last-send timestamp
    at 0.  Whatever the calls of [loop()] after it are, the first write to
    the characteristic they make is made by the first pass of a connected
    loop whose reading of [millis()] is at least 1000, and it carries the
    value 1; when no pass is due, or [BLE.begin()] failed, nothing is
    written.  That 1 is also the first value transmitted when its write
    succeeds. *)
Theorem first_write_is_one (b : Boot) (ps : list Poll) :
  let r0 := setup b initial_globals in
  let r := sketch_run (value r0) ps (final r0) in
  currentNumber (final r0) = 0 /\
  lastNumberSent (final r0) = 0 /\
  trace (power_on b ps) = trace r0 ++ trace r /\
  hd_error (writes (trace r)) =
    (if bt_begin_ok b
     then option_map (fun tk => (1, tk_write_ok tk)) (first_due_pass ps)
     else None) /\
  (forall tk,
     bt_begin_ok b = true -> first_due_pass ps = Some tk ->
     hd_error (attempted (trace r)) = Some 1 /\
     (tk_write_ok tk = true -> hd_error (transmitted (trace r)) = Some 1)).
Proof.
  cbv zeta.
  destruct (power_on_split b ps) as (_ & _ & Ht).
  assert (Hfirst :
    hd_error (writes (trace (sketch_run (value (setup b initial_globals)) ps
                               (final (setup b initial_globals))))) =
    (if bt_begin_ok b
     then option_map (fun tk => (1, tk_write_ok tk)) (first_due_pass ps)
     else None)).
  { rewrite setup_run. destruct (bt_begin_ok b); cbn [value final fst snd].
    - destruct (first_write_by_sketch_run ps
                  (set_lastHeartbeat (bt_millis b) initial_globals)) as [Hhd _].
      exact Hhd.
    - rewrite sketch_run_halted. cbn [trace snd].
      destruct (halted_trace_no_ble (length ps)) as (_ & _ & Hw).
      rewrite Hw. reflexivity. }
  split; [apply setup_counter|]. split; [apply setup_lastNumberSent|].
  split; [exact Ht|]. split; [exact Hfirst|].
  intros tk Hb Hdue. rewrite Hb, Hdue in Hfirst. cbn [option_map] in Hfirst.
  unfold attempted, transmitted.
  destruct (writes (trace (sketch_run (value (setup b initial_globals)) ps
                             (final (setup b initial_globals)))))
    as [|w ws]; [discriminate|].
  cbn [hd_error] in Hfirst. injection Hfirst as ->.
  split; [reflexivity|]. intros ->. reflexivity.
Qed.

Lemma first_write_is_one_witness :
  let ps := [mkPoll 300 None;
             mkPoll 600 (Some (mkCentral 600 (-60)
                                 [mkTick 600 true (-60); mkTick 999 true (-60);
                                  mkTick 1040 true (-60); mkTick 2040 true (-60)]
                                 2100 2100))] in
  let r0 := setup (mkBoot 0 true true 40) initial_globals in
  let r := sketch_run (value r0) ps (final r0) in
  hd_error (attempted (trace r)) = Some 1 /\
  hd_error (transmitted (trace r)) = Some 1.
Proof.
  cbv zeta.
  destruct (first_write_is_one (mkBoot 0 true true 40)
    [mkPoll 300 None;
     mkPoll 600 (Some (mkCentral 600 (-60)
                         [mkTick 600 true (-60); mkTick 999 true (-60);
                          mkTick 1040 true (-60); mkTick 2040 true (-60)]
                         2100 2100))]) as (_ & _ & _ & _ & H).
  destruct (H (mkTick 1040 true (-60)) eq_refl eq_refl) as [Ha Htx].
  split; [exact Ha|exact (Htx eq_refl)].
Defined.

(** Two reconnections around the wrap of [millis()] at 2^32.  Across the
    wrap the unsigned difference still measures the time since the last
    send, and the first pass sends; a whole turn of the clock later it is
    small again, and the first pass does not send. *)
Example reconnect_across_the_wrap :
  let g := set_currentNumber 7 (set_lastNumberSent 4294966796 initial_globals) in
  let c := mkCentral 600 (-58) [mkTick 650 true (-58)] 700 700 in
  writes (trace (loop (mkPoll 600 (Some c)) g)) = [(8, true)].
Proof. reflexivity. Qed.

Example reconnect_a_whole_turn_later :
  let g := set_currentNumber 7 (set_lastNumberSent 50 initial_globals) in
  let c := mkCentral 4294967295 (-58) [mkTick 60 true (-58)] 110 110 in
  writes (trace (loop (mkPoll 4294967295 (Some c)) g)) = [].
Proof. reflexivity. Qed.



(** * Further properties of the sketch *)

(** ** Helper lemmas *)

Lemma never_bind {A B} (P : Event -> bool) (m : M A) (k : A -> M B) :
  never P m -> (forall a, never P (k a)) -> never P (bind m k).
Proof.
  intros Hm Hk g. rewrite trace_bind, filter_app, Hm, Hk. reflexivity.
Qed.

Lemma keeps_session_bind {A B} (m : M A) (k : A -> M B) :
  keeps_session m -> (forall a, keeps_session (k a)) -> keeps_session (bind m k).
Proof.
  intros Hm Hk g. rewrite final_bind.
  destruct (Hm g) as (H1 & H2 & H3).
  destruct (Hk (value (m g)) (final (m g))) as (K1 & K2 & K3).
  rewrite K1, K2, K3. auto.
Qed.

Lemma keeps_session_connected_body tk : keeps_session (connected_body tk).
Proof.
  intros g. rewrite connected_body_run. cbv zeta. cbn [final fst snd].
  rewrite connection_alive_run, send_number_run.
  destruct (send_due (tk_millis tk) g); cbn [final fst snd];
    match goal with |- context [alive_due ?t ?x] => destruct (alive_due t x) end;
    cbn; auto.
Qed.

Lemma keeps_session_connected_loop ticks : keeps_session (connected_loop ticks).
Proof.
  induction ticks as [|tk ticks IH]; cbn [connected_loop].
  - intros g. cbn. auto.
  - apply keeps_session_bind; [apply keeps_session_connected_body|intros _; exact IH].
Qed.

Lemma keeps_session_idle_heartbeat currentTime :
  keeps_session (idle_heartbeat currentTime).
Proof. intros g. unfold idle_heartbeat. run_piece; auto. Qed.

Lemma never_advertise_connected_body tk : never is_advertise (connected_body tk).
Proof.
  intros g. rewrite connected_body_run. cbv zeta. cbn [trace snd].
  rewrite connection_alive_run, send_number_run.
  destruct (send_due (tk_millis tk) g); cbn [final trace fst snd];
    match goal with |- context [alive_due ?t ?x] => destruct (alive_due t x) end;
    reflexivity.
Qed.

Lemma never_advertise_connected_loop ticks :
  never is_advertise (connected_loop ticks).
Proof.
  induction ticks as [|tk ticks IH]; cbn [connected_loop].
  - intros g. reflexivity.
  - apply never_bind; [apply never_advertise_connected_body|intros _; exact IH].
Qed.

Lemma never_advertise_enter_session currentTime c :
  never is_advertise (enter_session currentTime c).
Proof.
  apply never_bind; [|intros _]; intros g.
  - unfold idle_heartbeat. run_piece; reflexivity.
  - unfold new_connection. run_piece; reflexivity.
Qed.

Lemma new_connection_flag currentTime c g :
  wasConnected (final (new_connection currentTime c g)) = true.
Proof.
  unfold new_connection, bind, when, get, modify, emit, ret. cbn.
  destruct (wasConnected g) eqn:E; cbn; auto.
Qed.

Lemma enter_session_fresh currentTime c g :
  wasConnected g = false ->
  let g1 := final (enter_session currentTime c g) in
  wasConnected g1 = true /\
  connectionStartTime g1 = currentTime /\
  totalConnections g1 = to_ulong (totalConnections g + 1).
Proof.
  intros Hw. cbv zeta. unfold enter_session. rewrite final_bind.
  destruct (keeps_session_idle_heartbeat currentTime g) as (H1 & _ & H3).
  rewrite Hw in H1.
  split; [apply new_connection_flag|].
  rewrite <- H3.
  generalize dependent (final (idle_heartbeat currentTime g)).
  intros g0 H0 _.
  unfold new_connection, bind, when, get, modify, emit, ret. cbn.
  rewrite H0. cbn. auto.
Qed.

Lemma sketch_step_inloop p g :
  value (sketch_step InLoop p g) = InLoop /\
  final (sketch_step InLoop p g) = final (loop p g) /\
  trace (sketch_step InLoop p g) = trace (loop p g).
Proof.
  cbn [sketch_step]. rewrite value_bind, final_bind, trace_bind.
  cbn. rewrite app_nil_r. auto.
Qed.

Lemma sketch_run_cons p ps g :
  let g1 := final (loop p g) in
  final (sketch_run InLoop (p :: ps) g) = final (sketch_run InLoop ps g1) /\
  trace (sketch_run InLoop (p :: ps) g) =
    trace (loop p g) ++ trace (sketch_run InLoop ps g1).
Proof.
  cbv zeta. cbn [sketch_run]. rewrite final_bind, trace_bind.
  destruct (sketch_step_inloop p g) as (Hv & Hf & Ht).
  rewrite Hv, Hf, Ht. auto.
Qed.

Lemma loop_session_state p g :
  wasConnected g = false ->
  wasConnected (final (loop p g)) = false /\
  totalConnections (final (loop p g)) =
    (if has_central p then to_ulong (totalConnections g + 1)
     else totalConnections g).
Proof.
  intros Hw. unfold has_central.
  destruct (pl_central p) as [c|] eqn:Hc.
  - destruct (loop_central_run p c g Hc) as [Hf _]. rewrite Hf.
    rewrite connection_lost_run. cbn [final fst snd].
    split; [reflexivity|].
    cbn [totalConnections set_lastHeartbeat set_wasConnected].
    destruct (keeps_session_connected_loop (ce_ticks c)
                (final (enter_session (pl_millis p) c g))) as (_ & _ & H3).
    destruct (enter_session_fresh (pl_millis p) c g Hw) as (_ & _ & H3').
    rewrite H3, H3'. reflexivity.
  - destruct (loop_idle_run p g Hc) as [Hf _]. rewrite Hf.
    destruct (keeps_session_idle_heartbeat (pl_millis p) g) as (H1 & _ & H3).
    rewrite H1, H3. auto.
Qed.

Lemma loop_advertises p g :
  filter is_advertise (trace (loop p g)) =
  if has_central p then [BleAdvertise] else [].
Proof.
  unfold has_central. destruct (pl_central p) as [c|] eqn:Hc.
  - destruct (loop_central_run p c g Hc) as [_ Ht]. rewrite Ht.
    rewrite !filter_app.
    rewrite (never_advertise_enter_session (pl_millis p) c g).
    rewrite (never_advertise_connected_loop (ce_ticks c)).
    rewrite connection_lost_run. reflexivity.
  - destruct (loop_idle_run p g Hc) as [_ Ht]. rewrite Ht, filter_app.
    unfold idle_heartbeat. run_piece; reflexivity.
Qed.

Lemma setup_session_state b :
  wasConnected (final (setup b initial_globals)) = false /\
  totalConnections (final (setup b initial_globals)) = 0.
Proof. rewrite setup_run. destruct (bt_begin_ok b); auto. Qed.

Lemma sketch_run_session_state ps :
  forall g,
    wasConnected g = false ->
    to_ulong (totalConnections g) = totalConnections g ->
    wasConnected (final (sketch_run InLoop ps g)) = false /\
    totalConnections (final (sketch_run InLoop ps g)) =
      to_ulong (totalConnections g + Z.of_nat (sessions ps)).
Proof.
  induction ps as [|p ps IH]; intros g Hw Hr.
  - cbn. rewrite Z.add_0_r, Hr. auto.
  - destruct (sketch_run_cons p ps g) as [Hf _]. rewrite Hf.
    destruct (loop_session_state p g Hw) as [Hw1 Ht1].
    assert (Hr1 : to_ulong (totalConnections (final (loop p g))) =
                  totalConnections (final (loop p g))).
    { rewrite Ht1. destruct (has_central p); [|exact Hr].
      unfold to_ulong. apply Z.mod_mod. unfold ULONG_MODULUS. lia. }
    destruct (IH _ Hw1 Hr1) as [Hw2 Ht2].
    split; [exact Hw2|]. rewrite Ht2, Ht1.
    unfold sessions. cbn [filter].
    destruct (has_central p); cbn [length].
    + unfold to_ulong. rewrite Zplus_mod_idemp_l. f_equal. lia.
    + reflexivity.
Qed.

Lemma observable_counter_ok g : Observable g -> counter_ok g.
Proof.
  induction 1 as [b|g p _ IH|g T c _ IH|g tk _ IH].
  - unfold counter_ok. rewrite setup_counter. lia.
  - exact (counts_counter_ok _ g (counts_loop p) IH).
  - exact (counts_counter_ok _ g (quiet_counts _ (quiet_enter_session T c)) IH).
  - exact (counts_counter_ok _ g (counts_connected_body tk) IH).
Qed.

Lemma new_connection_trace currentTime c g :
  wasConnected g = false ->
  trace (new_connection currentTime c g) =
  [Serial LnNewConnection;
   Serial (LnConnectionInfo (ulong_sub (ce_info_millis c) currentTime / 1000)
                            (ce_info_rssi c));
   Serial LnStartTransmission].
Proof.
  intros Hw. unfold new_connection, bind, when, get, modify, emit, ret. cbn.
  rewrite Hw. reflexivity.
Qed.

Lemma sketch_run_advertises ps :
  forall g,
    length (filter is_advertise (trace (sketch_run InLoop ps g))) = sessions ps.
Proof.
  induction ps as [|p ps IH]; intros g; [reflexivity|].
  destruct (sketch_run_cons p ps g) as [_ Ht].
  rewrite Ht, filter_app, length_app, IH, loop_advertises.
  unfold sessions. cbn [filter]. destruct (has_central p); reflexivity.
Qed.

Lemma wrap_signed_small bits z :
  1 <= bits -> - 2 ^ (bits - 1) <= z < 2 ^ (bits - 1) -> wrap_signed bits z = z.
Proof.
  intros Hb Hz. unfold wrap_signed.
  assert (Hp : 2 ^ bits = 2 * 2 ^ (bits - 1)).
  { replace bits with (Z.succ (bits - 1)) at 1 by lia.
    apply Z.pow_succ_r. lia. }
  rewrite Z.mod_small; lia.
Qed.

Lemma clock_ok_bounds ticks : forall lo hi, clock_ok lo hi ticks -> lo <= hi.
Proof.
  induction ticks as [|tk ticks IH]; intros lo hi H; cbn in H; [exact H|].
  destruct H as [H1 H2]. specialize (IH _ _ H2). lia.
Qed.

(** ** The extra properties *)

(** X1.  Whenever [loop()] is about to be called, [wasConnected] is false;
    it is true throughout the connected loop; so the test on line 147 never
    holds the idle heartbeat line back. *)
Theorem session_flag_clear_between_loops (b : Boot) (ps : list Poll) :
  let g := final (power_on b ps) in
  wasConnected g = false /\
  (forall currentTime c ticks,
     wasConnected (final (connected_loop ticks
                     (final (enter_session currentTime c g)))) = true) /\
  (forall currentTime,
     10000 < ulong_sub currentTime (lastHeartbeat g) ->
     trace (idle_heartbeat currentTime g) = [Serial LnIdleHeartbeat]).
Proof.
  cbv zeta.
  assert (Hw : wasConnected (final (power_on b ps)) = false).
  { destruct (power_on_split b ps) as (_ & Hf & _). rewrite Hf.
    destruct (setup_session_state b) as [Hw0 Ht0].
    rewrite setup_run in *. destruct (bt_begin_ok b); cbn [value final fst snd] in *.
    - apply sketch_run_session_state; [exact Hw0|reflexivity].
    - rewrite sketch_run_halted. reflexivity. }
  split; [exact Hw|]. split.
  - intros T c ticks.
    destruct (keeps_session_connected_loop ticks
                (final (enter_session T c (final (power_on b ps))))) as (H1 & _ & _).
    rewrite H1. unfold enter_session. rewrite final_bind. apply new_connection_flag.
  - intros T HT. apply Z.ltb_lt in HT.
    unfold idle_heartbeat, bind, when, get, modify, emit, ret, trace.
    rewrite HT, Hw. reflexivity.
Qed.

Lemma session_flag_clear_between_loops_witness :
  let c := mkCentral 4000 (-55) [mkTick 4000 true (-55); mkTick 5000 true (-55)]
                     5050 5050 in
  let g := final (power_on (mkBoot 1 true true 100) [mkPoll 4000 (Some c)]) in
  wasConnected g = false /\
  trace (idle_heartbeat 15051 g) = [Serial LnIdleHeartbeat].
Proof.
  cbv zeta.
  destruct (session_flag_clear_between_loops (mkBoot 1 true true 100)
    [mkPoll 4000
       (Some (mkCentral 4000 (-55) [mkTick 4000 true (-55); mkTick 5000 true (-55)]
                        5050 5050))]) as (Hw & _ & Hhb).
  split; [exact Hw|]. apply Hhb. cbn; lia.
Defined.

(** X2.  After any number of calls of [loop()], [totalConnections] is the
    number of calls in which [BLE.central()] returned a central, modulo
    2^32; it stays 0 when [BLE.begin()] failed. *)
Theorem total_connections_counts_sessions (b : Boot) (ps : list Poll) :
  totalConnections (final (power_on b ps)) =
  if bt_begin_ok b then to_ulong (Z.of_nat (sessions ps)) else 0.
Proof.
  destruct (power_on_split b ps) as (_ & Hf & _). rewrite Hf.
  destruct (setup_session_state b) as [Hw0 Ht0].
  rewrite setup_run in *. destruct (bt_begin_ok b); cbn [value final fst snd] in *.
  - destruct (sketch_run_session_state ps _ Hw0 eq_refl) as [_ Ht].
    rewrite Ht. reflexivity.
  - rewrite sketch_run_halted. reflexivity.
Qed.

(** X3.  When [BLE.begin()] succeeds, the values handed to the
    characteristic from power-on, over all sessions, are 0, 1, 2, ..., 100,
    0, 1, ...: the first is the initial value written by [setup()], and the
    counter ends at the last value written. *)
Theorem power_on_sequence (b : Boot) (ps : list Poll) :
  bt_begin_ok b = true ->
  let t := trace (power_on b ps) in
  attempted t = map (fun i => Z.of_nat i mod 101) (seq 0 (length (attempted t))) /\
  (0 < length (attempted t))%nat /\
  currentNumber (final (power_on b ps)) =
    (Z.of_nat (length (attempted t)) - 1) mod 101.
Proof.
  intros Hb. cbv zeta.
  destruct (power_on_split b ps) as (_ & Hf & Ht).
  assert (H0 : counter_ok (final (setup b initial_globals)))
    by (unfold counter_ok; rewrite setup_counter; lia).
  destruct (counts_sketch_run ps (value (setup b initial_globals)) _ H0)
    as [Ha Hn].
  rewrite setup_counter in Ha, Hn.
  rewrite Hf, Ht, attempted_app.
  assert (Hs : attempted (trace (setup b initial_globals)) = [0]).
  { destruct (repeat_delay_no_ble 100 (bt_serial_waits b)) as (_ & _ & Hw).
    rewrite setup_run, Hb. unfold attempted. cbn [trace snd].
    rewrite writes_app, Hw. reflexivity. }
  rewrite Hs. cbn [app length].
  set (N := length (attempted (trace (sketch_run (value (setup b initial_globals))
                ps (final (setup b initial_globals)))))) in *.
  split; [|split].
  - cbn [seq map]. f_equal. rewrite Ha. unfold counting_from.
    apply map_ext. intros i. reflexivity.
  - lia.
  - rewrite Hn. f_equal. lia.
Qed.

Lemma power_on_sequence_witness :
  let c := mkCentral 7300 (-60)
             [mkTick 7300 true (-60); mkTick 7350 true (-60);
              mkTick 8300 false (-60)] 8400 8400 in
  let r := power_on (mkBoot 0 true false 40) [mkPoll 2000 None; mkPoll 7300 (Some c)] in
  attempted (trace r) = [0; 1; 2] /\ currentNumber (final r) = 2.
Proof.
  cbv zeta.
  destruct (power_on_sequence (mkBoot 0 true false 40)
    [mkPoll 2000 None;
     mkPoll 7300 (Some (mkCentral 7300 (-60)
             [mkTick 7300 true (-60); mkTick 7350 true (-60);
              mkTick 8300 false (-60)] 8400 8400))] eq_refl) as (Ha & _ & Hn).
  split; [rewrite Ha|rewrite Hn]; reflexivity.
Defined.

(** X4.  With a clock that never goes back, a connected loop whose passes
    all fall between the last send [L] and [hi] makes at most
    [(hi - L) / 1000] writes: sends are never closer than one interval. *)
Theorem sends_at_most_once_per_interval (ticks : list Tick) :
  forall (g : Globals) (lo hi : Z),
    0 <= lastNumberSent g <= lo ->
    clock_ok lo hi ticks ->
    hi < ULONG_MODULUS ->
    NUMBER_SEND_INTERVAL *
      Z.of_nat (length (writes (trace (connected_loop ticks g))))
    <= hi - lastNumberSent g.
Proof.
  unfold NUMBER_SEND_INTERVAL.
  induction ticks as [|tk ticks IH]; intros g lo hi HL Hclk Hhi.
  - cbn in *. lia.
  - cbn [clock_ok] in Hclk. destruct Hclk as [Hlo Hclk].
    pose proof (clock_ok_bounds ticks _ _ Hclk) as Hrest.
    cbn [connected_loop]. rewrite trace_bind, writes_app, length_app, body_writes.
    specialize (IH (final (connected_body tk g)) (tk_millis tk) hi).
    rewrite body_lastNumberSent in IH.
    unfold send_due, NUMBER_SEND_INTERVAL in *.
    rewrite ulong_sub_monotonic in * by lia.
    revert IH.
    destruct (Z.leb_spec 1000 (tk_millis tk - lastNumberSent g)); intros IH.
    + specialize (IH ltac:(lia) Hclk Hhi). cbn [length]. lia.
    + specialize (IH ltac:(lia) Hclk Hhi). cbn [length]. lia.
Qed.

Lemma sends_at_most_once_per_interval_witness :
  let g := set_lastNumberSent 5000 initial_globals in
  let ticks := [mkTick 5950 true (-60); mkTick 6000 true (-60);
                mkTick 6050 true (-60); mkTick 6990 true (-60);
                mkTick 7040 true (-60)] in
  1000 * Z.of_nat (length (writes (trace (connected_loop ticks g)))) <= 7040 - 5000.
Proof.
  cbv zeta.
  apply (sends_at_most_once_per_interval
           [mkTick 5950 true (-60); mkTick 6000 true (-60);
            mkTick 6050 true (-60); mkTick 6990 true (-60);
            mkTick 7040 true (-60)]
           (set_lastNumberSent 5000 initial_globals) 5000 7040).
  - cbn; lia.
  - cbn; lia.
  - cbn; lia.
Defined.

(** X5.  [BLE.advertise()] is called once by [setup()] and once more at the
    end of every call of [loop()] that found a central, also when that
    central was never seen connected; it is never called anywhere else, and
    not at all when [BLE.begin()] failed. *)
Theorem advertise_once_per_session (b : Boot) (ps : list Poll) :
  length (filter is_advertise (trace (power_on b ps))) =
  if bt_begin_ok b then S (sessions ps) else 0%nat.
Proof.
  destruct (power_on_split b ps) as (_ & _ & Ht). rewrite Ht.
  destruct (repeat_delay_no_ble 100 (bt_serial_waits b)) as (Ha & _ & _).
  assert (Hf : filter is_advertise (repeat (DelayMs 100) (bt_serial_waits b)) = []).
  { clear. induction (bt_serial_waits b) as [|n IH]; [reflexivity|exact IH]. }
  rewrite setup_run. destruct (bt_begin_ok b); cbn [value final trace fst snd].
  - rewrite !filter_app, !length_app, Hf, sketch_run_advertises. reflexivity.
  - rewrite sketch_run_halted. cbn [trace snd].
    rewrite !filter_app, !length_app, Hf.
    destruct (halted_trace_no_ble (length ps)) as (Hh & _ & _).
    clear -Hh. cbn.
    induction (halted_trace (length ps)) as [|e t IH]; [reflexivity|].
    cbn in Hh |- *. apply orb_false_elim in Hh. destruct Hh as [He Hh].
    rewrite He. exact (IH Hh).
Qed.

(** X6.  The connected loop touches only the counter and the two timers:
    [wasConnected], [connectionStartTime] and [totalConnections] come out of
    it as they went in, and it never calls [BLE.advertise()]. *)
Theorem connected_loop_frame (ticks : list Tick) (g : Globals) :
  let r := connected_loop ticks g in
  wasConnected (final r) = wasConnected g /\
  connectionStartTime (final r) = connectionStartTime g /\
  totalConnections (final r) = totalConnections g /\
  filter is_advertise (trace r) = [].
Proof.
  cbv zeta. destruct (keeps_session_connected_loop ticks g) as (H1 & H2 & H3).
  repeat split; try assumption. apply never_advertise_connected_loop.
Qed.

(** X7.  A call of [loop()] that finds a central while [wasConnected] is
    false takes the reading of [millis()] on line 143 as the start of the
    session: that is what [connectionStartTime] holds afterwards, and the
    connection report and the disconnect report print the whole seconds
    elapsed since that reading. *)
Theorem session_times_from_loop_entry (p : Poll) (c : Central) (g : Globals) :
  wasConnected g = false ->
  pl_central p = Some c ->
  connectionStartTime (final (loop p g)) = pl_millis p /\
  In (Serial (LnConnectionInfo
                (ulong_sub (ce_info_millis c) (pl_millis p) / 1000)
                (ce_info_rssi c)))
     (trace (loop p g)) /\
  In (Serial (LnConnectionLost
                (ulong_sub (ce_lost_millis c) (pl_millis p) / 1000)))
     (trace (loop p g)).
Proof.
  intros Hw Hc.
  destruct (loop_central_run p c g Hc) as [Hf Ht].
  destruct (enter_session_fresh (pl_millis p) c g Hw) as (_ & Hs & _).
  destruct (keeps_session_connected_loop (ce_ticks c)
              (final (enter_session (pl_millis p) c g))) as (_ & Hk & _).
  rewrite Hs in Hk.
  rewrite Hf, Ht, connection_lost_run. cbn [final trace fst snd].
  cbn [connectionStartTime set_lastHeartbeat set_wasConnected]. rewrite Hk.
  split; [reflexivity|]. split.
  - apply in_or_app. left.
    unfold enter_session. rewrite trace_bind. apply in_or_app. right.
    destruct (keeps_session_idle_heartbeat (pl_millis p) g) as (H1 & _ & _).
    rewrite new_connection_trace by (rewrite H1; exact Hw).
    right. left. reflexivity.
  - apply in_or_app. right. apply in_or_app. right. left. reflexivity.
Qed.

Lemma session_times_from_loop_entry_witness :
  let c := mkCentral 4010 (-55) [mkTick 4020 true (-55)] 9500 9500 in
  let r := loop (mkPoll 4000 (Some c)) initial_globals in
  connectionStartTime (final r) = 4000 /\
  In (Serial (LnConnectionInfo 0 (-55))) (trace r) /\
  In (Serial (LnConnectionLost 5)) (trace r).
Proof.
  cbv zeta.
  exact (session_times_from_loop_entry
           (mkPoll 4000 (Some (mkCentral 4010 (-55) [mkTick 4020 true (-55)]
                                         9500 9500)))
           (mkCentral 4010 (-55) [mkTick 4020 true (-55)] 9500 9500)
           initial_globals eq_refl eq_refl).
Defined.

(** X8.  In every observable state [currentNumber + 1] is at most 101, so
    the increment on line 175 never overflows [int], whatever its width
    (16 bits on AVR, 32 elsewhere): the width the model gives [int] does not
    matter. *)
Theorem increment_never_overflows (g : Globals) (bits : Z) :
  Observable g ->
  8 <= bits ->
  wrap_signed bits (currentNumber g + 1) = currentNumber g + 1 /\
  to_int (currentNumber g + 1) = wrap_signed 32 (currentNumber g + 1).
Proof.
  intros Hg Hb. split; [|reflexivity].
  pose proof (observable_counter_ok g Hg) as Hc. unfold counter_ok in Hc.
  apply wrap_signed_small; [lia|].
  assert (2 ^ 7 <= 2 ^ (bits - 1)) by (apply Z.pow_le_mono_r; lia).
  change (2 ^ 7) with 128 in *. lia.
Qed.

Lemma increment_never_overflows_witness :
  let g := final (connected_body (mkTick 1000 true (-60))
                    (final (setup (mkBoot 0 true true 0) initial_globals))) in
  wrap_signed 16 (currentNumber g + 1) = currentNumber g + 1.
Proof.
  cbv zeta.
  apply (increment_never_overflows
           (final (connected_body (mkTick 1000 true (-60))
                     (final (setup (mkBoot 0 true true 0) initial_globals)))) 16).
  - apply Obs_pass, Obs_setup.
  - lia.
Defined.

(** X9.  The calls [setup()] makes into the BLE library: after a successful
    [BLE.begin()] it configures, writes the initial value 0 and advertises,
    in that order, and returns with only the heartbeat timer set, whether or
    not the initial write succeeded; after a failed [BLE.begin()] it makes
    no further call and changes no global. *)
Theorem setup_ble_calls (b : Boot) :
  filter is_ble_call (trace (setup b initial_globals)) =
    (if bt_begin_ok b
     then [BleBegin true; BleConfigure; CharWrite 0 (bt_write_ok b); BleAdvertise]
     else [BleBegin false]) /\
  value (setup b initial_globals) = (if bt_begin_ok b then InLoop else Halted) /\
  final (setup b initial_globals) =
    (if bt_begin_ok b then set_lastHeartbeat (bt_millis b) initial_globals
     else initial_globals).
Proof.
  assert (Hf : filter is_ble_call (repeat (DelayMs 100) (bt_serial_waits b)) = []).
  { induction (bt_serial_waits b) as [|n IH]; [reflexivity|exact IH]. }
  rewrite setup_run.
  destruct (bt_begin_ok b); cbn [value final trace fst snd];
    rewrite filter_app, Hf; destruct (bt_write_ok b); auto.
Qed.

(** X10.  [printConnectionInfo] never prints an empty device name: an empty
    name is shown as "Unknown", any other name as it is.  The numbers it
    prints are the whole seconds since [connectionStartTime] and the RSSI;
    when less than a second has passed on a clock that has not gone back,
    the connection time printed is 0. *)
Theorem connection_info_name_fallback
        (address name : String.string) (now rssi : Z) (g : Globals) :
  let out := printConnectionInfo address name now rssi g in
  nth_error (strings out) 4 <> Some String.EmptyString /\
  (name = String.EmptyString ->
   nth_error (strings out) 4 = Some "Unknown"%string) /\
  (name <> String.EmptyString -> nth_error (strings out) 4 = Some name) /\
  numbers out = [ulong_sub now (connectionStartTime g) / 1000; rssi] /\
  (0 <= connectionStartTime g <= now ->
   now < connectionStartTime g + 1000 -> now < ULONG_MODULUS ->
   numbers out = [0; rssi]).
Proof.
  cbv zeta. unfold printConnectionInfo. cbn [strings numbers flat_map arg_of app nth_error].
  destruct name as [|ch rest]; cbn [String.length Nat.ltb Nat.leb].
  - repeat split; try discriminate; try congruence.
    intros H1 H2 H3. rewrite ulong_sub_monotonic by lia.
    rewrite Z.div_small by lia. reflexivity.
  - repeat split; try discriminate; try congruence.
    intros H1 H2 H3. rewrite ulong_sub_monotonic by lia.
    rewrite Z.div_small by lia. reflexivity.
Qed.

Lemma connection_info_name_fallback_witness :
  let g := set_connectionStartTime 4000 initial_globals in
  nth_error (strings (printConnectionInfo "aa:bb"%string ""%string 4700 (-58) g)) 4
    = Some "Unknown"%string /\
  nth_error (strings (printConnectionInfo "aa:bb"%string "Phone"%string 4700 (-58) g)) 4
    = Some "Phone"%string /\
  numbers (printConnectionInfo "aa:bb"%string "Phone"%string 4700 (-58) g) = [0; -58].
Proof.
  cbv zeta. split; [|split].
  - apply (connection_info_name_fallback "aa:bb"%string ""%string 4700 (-58)
             (set_connectionStartTime 4000 initial_globals)). reflexivity.
  - apply (connection_info_name_fallback "aa:bb"%string "Phone"%string 4700 (-58)
             (set_connectionStartTime 4000 initial_globals)). discriminate.
  - apply (connection_info_name_fallback "aa:bb"%string "Phone"%string 4700 (-58)
             (set_connectionStartTime 4000 initial_globals)); cbn; lia.
Defined.

(** X11.  [printSystemInfo] prints a byte count exactly when [freeMemory]
    does not return -1.  Off AVR it returns -1, so only the uptime in whole
    seconds is printed, after the not-available line.  On AVR, with the
    stack above the heap and the static data in the lower half of the
    address space, it returns the distance from the heap (or from the end of
    the static data while the heap is unused) up to the stack, which is not
    negative, and that count is printed. *)
Theorem system_info_memory_line (now : Z) :
  numbers (printSystemInfo OtherPlatform now) = [now / 1000] /\
  In "Memory info: Not available on this platform"%string
     (strings (printSystemInfo OtherPlatform now)) /\
  (forall brkval bss_end top,
     0 <= bss_end <= top -> 0 <= brkval <= top -> top < 2 ^ 15 ->
     let free := top - (if brkval =? 0 then bss_end else brkval) in
     freeMemory (AVR brkval bss_end top) = free /\
     0 <= free /\
     numbers (printSystemInfo (AVR brkval bss_end top) now) = [free; now / 1000]).
Proof.
  split; [reflexivity|]. split; [cbn; auto|].
  intros brkval bss_end top H1 H2 H3. cbv zeta.
  assert (Hfree : freeMemory (AVR brkval bss_end top) =
                  top - (if brkval =? 0 then bss_end else brkval)).
  { cbn [freeMemory]. change (2 ^ 15) with 32768 in H3.
    destruct (brkval =? 0); apply wrap_signed_small;
      change (2 ^ (16 - 1)) with 32768; lia. }
  split; [exact Hfree|].
  assert (Hpos : 0 <= top - (if brkval =? 0 then bss_end else brkval))
    by (destruct (brkval =? 0); lia).
  split; [exact Hpos|].
  unfold printSystemInfo. rewrite Hfree.
  destruct (Z.eqb_spec (top - (if brkval =? 0 then bss_end else brkval)) (-1));
    [lia|]. reflexivity.
Qed.

Lemma system_info_memory_line_witness :
  freeMemory (AVR 0 600 2200) = 1600 /\
  numbers (printSystemInfo (AVR 900 600 2200) 65000) = [1300; 65].
Proof.
  destruct (system_info_memory_line 65000) as (_ & _ & H).
  split.
  - apply (H 0 600 2200); cbn; lia.
  - apply (H 900 600 2200); cbn; lia.
Defined.

Lemma body_alive tk g :
  alive_reports (trace (connected_body tk g)) =
    (if alive_due (tk_millis tk) g
     then [Serial (LnAlive (tk_rssi tk)
                     (ulong_sub (tk_millis tk) (connectionStartTime g) / 1000))]
     else []) /\
  lastHeartbeat (final (connected_body tk g)) =
    (if alive_due (tk_millis tk) g then tk_millis tk else lastHeartbeat g).
Proof.
  rewrite connected_body_run. cbv zeta. cbn [final trace fst snd].
  destruct (send_number_lastHeartbeat (tk_millis tk) (tk_write_ok tk) g)
    as (Hh & Hc & Ha).
  assert (Hd : alive_due (tk_millis tk)
                 (final (send_number (tk_millis tk) (tk_write_ok tk) g)) =
               alive_due (tk_millis tk) g)
    by (unfold alive_due; rewrite Hh; reflexivity).
  unfold alive_reports in *. rewrite !filter_app, Ha.
  rewrite connection_alive_run, Hd, Hc.
  destruct (alive_due (tk_millis tk) g); cbn [final trace fst snd]; auto.
Qed.

Lemma enter_session_lastHeartbeat currentTime c g :
  lastHeartbeat (final (enter_session currentTime c g)) =
  if 10000 <? ulong_sub currentTime (lastHeartbeat g)
  then currentTime else lastHeartbeat g.
Proof.
  unfold enter_session. rewrite final_bind.
  assert (Hn : forall g0, lastHeartbeat (final (new_connection currentTime c g0)) =
                          lastHeartbeat g0)
    by (intros g0; unfold new_connection; run_piece; reflexivity).
  rewrite Hn. unfold idle_heartbeat. run_piece; reflexivity.
Qed.

(** X12.  A session prints no connection report during its first twenty
    seconds: on entry the heartbeat timer is at most ten seconds old (line
    146 has just reset it otherwise), and line 190 asks for more than
    thirty. *)
Theorem no_alive_report_in_first_20s
        (currentTime : Z) (c : Central) (g : Globals) (ticks : list Tick) :
  0 <= lastHeartbeat g <= currentTime ->
  currentTime < ULONG_MODULUS ->
  Forall (fun tk => currentTime <= tk_millis tk <= currentTime + 20000 /\
                    tk_millis tk < ULONG_MODULUS) ticks ->
  alive_reports (trace (connected_loop ticks
                          (final (enter_session currentTime c g)))) = [].
Proof.
  intros Hhb Hnow Hticks.
  assert (Hentry : 0 <= lastHeartbeat (final (enter_session currentTime c g)) /\
                   currentTime - 10000 <=
                   lastHeartbeat (final (enter_session currentTime c g))
                   <= currentTime).
  { rewrite enter_session_lastHeartbeat.
    destruct (Z.ltb_spec 10000 (ulong_sub currentTime (lastHeartbeat g))) as [H|H];
      [lia|].
    rewrite ulong_sub_monotonic in H by lia. lia. }
  clear Hhb.
  revert Hentry. generalize (final (enter_session currentTime c g)) as g1.
  induction Hticks as [|tk ticks [[H1 H2] H3] _ IH]; intros g1 Hg1.
  - reflexivity.
  - cbn [connected_loop]. unfold alive_reports in *.
    rewrite trace_bind, filter_app.
    destruct (body_alive tk g1) as [Ha Hl]. unfold alive_reports in Ha.
    assert (Hnot : alive_due (tk_millis tk) g1 = false).
    { unfold alive_due. rewrite ulong_sub_monotonic by lia.
      apply Z.ltb_ge. lia. }
    rewrite Hnot in Ha, Hl. rewrite Ha. cbn [app].
    apply IH. rewrite Hl. exact Hg1.
Qed.

Lemma no_alive_report_in_first_20s_witness :
  let g := final (setup (mkBoot 0 true true 0) initial_globals) in
  let c := mkCentral 10000 (-60) [] 0 0 in
  alive_reports (trace (connected_loop
                   [mkTick 10000 true (-60); mkTick 20000 true (-60);
                    mkTick 30000 true (-60)]
                   (final (enter_session 10000 c g)))) = [].
Proof.
  cbv zeta.
  apply (no_alive_report_in_first_20s 10000 (mkCentral 10000 (-60) [] 0 0)
           (final (setup (mkBoot 0 true true 0) initial_globals))).
  - cbn; lia.
  - cbn; lia.
  - repeat constructor; cbn; lia.
Defined.
